(** * ScreenPro2: the [PooledScreens] run registry of [screenpro/assays.py]

    A shallow embedding of the class [PooledScreens]: its constructor, the
    private helper [_add_phenotype_results], the two scoring methods
    [calculateDrugScreen] and [calculateFlowBasedScreen], and the retrieval
    method [getPhenotypeScores].

    Python objects are mutable and exceptions leave earlier mutations in
    place, so every method is a computation in a small monad that threads the
    object, may raise, and records the calls made to the PhenoScore core. *)

From Stdlib Require Import ZArith Bool.
From Stdlib Require Import SpecFloat.
From stdpp Require Import base option list strings gmap fin_maps.

Set Default Proof Using "Type".
Open Scope string_scope.
Open Scope list_scope.

(** ** Numbers *)

Module PyFloat.

(** Python's [float] is IEEE 754 binary64: 53 bits of precision, infinities
    at exponent 1024. *)
Definition prec : Z := 53.
Definition emax : Z := 1024.

Definition sub (x y : spec_float) : spec_float := SFsub prec emax x y.
Definition abs (x : spec_float) : spec_float := SFabs x.
Definition eqb (x y : spec_float) : bool := SFeqb x y.

Definition pos_zero : spec_float := S754_zero false.
Definition neg_zero : spec_float := S754_zero true.
Definition pos_inf : spec_float := S754_infinity false.

(** 1.0 and 2.0 in normal form. *)
Definition one : spec_float := S754_finite false 4503599627370496 (-52).
Definition two : spec_float := S754_finite false 4503599627370496 (-51).

Definition is_finite (x : spec_float) : bool :=
  match x with
  | S754_zero _ | S754_finite _ _ _ => true
  | S754_infinity _ | S754_nan => false
  end.

End PyFloat.

(** A number that may be given as an [int] or as a [float]. *)
Inductive pynum : Type :=
  | PyInt (z : Z)
  | PyFloat (f : spec_float).

(** ** Exceptions and results *)

Inductive exn : Type :=
  | ValueError (msg : string)
  | KeyError (missing : list string)
  | IndexingError (msg : string)
  | InvalidIndexError (msg : string)
  | CoreError (msg : string).

Inductive result (A : Type) : Type :=
  | Ok (a : A)
  | Err (e : exn).
Arguments Ok {A} a.
Arguments Err {A} e.

Definition is_ok {A} (r : result A) : bool :=
  match r with Ok _ => true | Err _ => false end.

(** ** Tables (the part of pandas the class uses) *)

Module Pandas.

Inductive cell : Type :=
  | CStr (s : string)
  | CNum (f : spec_float).

#[global] Instance spec_float_eq_dec : EqDecision spec_float.
Proof. solve_decision. Defined.

#[global] Instance cell_eq_dec : EqDecision cell.
Proof. solve_decision. Defined.

(** A frame is stored by column; [index_name] and [index] are the row
    labels ([None] for an unnamed index).  Several columns may carry the
    same label. *)
Record DataFrame : Type := mkFrame {
  index_name : option string;
  index : list cell;
  columns : list (string * list cell)
}.

Definition column_names (df : DataFrame) : list string := (columns df).*1.

(** The first column carrying a label; [None] when no column carries it. *)
Fixpoint get_column (cols : list (string * list cell)) (name : string)
    : option (list cell) :=
  match cols with
  | [] => None
  | (n, v) :: rest => if bool_decide (n = name) then Some v else get_column rest name
  end.

Definition has_column (cols : list (string * list cell)) (name : string) : bool :=
  match get_column cols name with Some _ => true | None => false end.

(** Every column carrying a label, in the order of the frame. *)
Definition columns_labelled (cols : list (string * list cell)) (name : string)
    : list (string * list cell) :=
  List.filter (fun c => bool_decide (c.1 = name)) cols.

(** For each label asked for, in the order asked, every column carrying it. *)
Definition select_columns (cols : list (string * list cell)) (keep : list string)
    : list (string * list cell) :=
  flat_map (columns_labelled cols) keep.

(** The labels of [l], each once, in the order of their first occurrence. *)
Fixpoint unique_labels (l : list string) : list string :=
  match l with
  | [] => []
  | x :: rest => x :: List.filter (fun y => negb (bool_decide (y = x))) (unique_labels rest)
  end.

(** [df.loc[:, keep]] with a list of labels: for each label, in the order
    listed, every column that carries it.  A label that no column carries
    makes it raise [KeyError]: with the labels not found, each once, or
    with the whole list when none of its labels was found. *)
Definition loc_columns (df : DataFrame) (keep : list string) : result DataFrame :=
  let missing := List.filter (fun n => negb (has_column (columns df) n)) keep in
  match missing with
  | [] => Ok (mkFrame (index_name df) (index df) (select_columns (columns df) keep))
  | _ :: _ =>
      Err (KeyError (if Nat.eqb (length missing) (length keep)
                     then keep else unique_labels missing))
  end.

(** [df.rename(columns={old: new})]: labels equal to [old] become [new];
    a label that is no column is ignored. *)
Definition rename_columns (df : DataFrame) (old new : string) : DataFrame :=
  mkFrame (index_name df) (index df)
    (map (fun c => (if bool_decide (c.1 = old) then new else c.1, c.2)) (columns df)).

(** What pandas does in the two cases the model leaves open: the frames of
    a [pd.concat(axis=1)] whose row labels differ, re-indexed on the union
    of their row labels (missing rows filled with NaN; an exception when a
    frame repeats a row label), and [df.set_index(key)] when several
    columns carry the label [key]. *)
Record Rest : Type := mkRest {
  reindex_rows : list DataFrame -> result (list DataFrame);
  set_index_repeated : DataFrame -> string -> result DataFrame
}.

(** [df.set_index(key)]: the one column labelled [key] becomes the index
    and is dropped from the columns; a [KeyError] when no column carries
    the label; left open when several do. *)
Definition set_index (px : Rest) (df : DataFrame) (key : string) : result DataFrame :=
  match columns_labelled (columns df) key with
  | [] => Err (KeyError [key])
  | [c] =>
      Ok (mkFrame (Some key) c.2
            (List.filter (fun c => negb (bool_decide (c.1 = key))) (columns df)))
  | _ :: _ :: _ => set_index_repeated px df key
  end.

(** A frame whose columns have two levels, as the list of its outer labels,
    each with the sub-frame [frame[label]] of the columns under it. *)
Definition MultiFrame : Type := list (string * DataFrame).

(** The frames have the same row labels, in the same order. *)
Definition same_rows (frames : list DataFrame) : bool :=
  match frames with
  | [] => true
  | f :: rest => forallb (fun f' => bool_decide (index f' = index f)) rest
  end.

(** The index name the frames agree on, if they do. *)
Definition unanimous_name (frames : list DataFrame) : option string :=
  match frames with
  | [] => None
  | f :: rest =>
      if forallb (fun f' => bool_decide (index_name f' = index_name f)) rest
      then index_name f else None
  end.

(** A frame as it stands in the concatenation of frames with the same row
    labels: its rows and columns, under the index name they agree on. *)
Definition concat_member (frames : list DataFrame) (f : DataFrame) : DataFrame :=
  mkFrame (unanimous_name frames) (index f) (columns f).

(** The outer labels with their sub-frames; a frame without columns brings
    no column, hence no outer label. *)
Definition keyed (keys : list string) (frames : list DataFrame) : MultiFrame :=
  omap (fun kf : string * DataFrame =>
          match columns kf.2 with
          | [] => None
          | _ :: _ => Some kf
          end)
       (zip keys frames).

(** [pd.concat({k1: t1, ...}, axis=1)]: the columns of the frames side by
    side, under the dictionary keys as outer labels, in insertion order.
    Frames with the same row labels are taken as they are, under the index
    name they agree on; otherwise the rows are aligned first, which may
    raise. *)
Definition concat_axis1 (px : Rest) (parts : list (string * DataFrame))
    : result MultiFrame :=
  match parts with
  | [] => Err (ValueError "No objects to concatenate")
  | _ :: _ =>
      let frames := parts.*2 in
      if same_rows frames
      then Ok (keyed parts.*1 (map (concat_member frames) frames))
      else
        match reindex_rows px frames with
        | Ok frames' => Ok (keyed parts.*1 frames')
        | Err e => Err e
        end
  end.

(** [frame[key]] on a frame with two column levels: the sub-frame under
    the outer label, [KeyError] when there is none. *)
Fixpoint getitem (mf : MultiFrame) (key : string) : result DataFrame :=
  match mf with
  | [] => Err (KeyError [key])
  | (k, t) :: rest => if bool_decide (k = key) then Ok t else getitem rest key
  end.

(** [frame[key]] gives a Series, not a frame, when the one column under the
    outer label is labelled with the empty string. *)
Definition squeezed (df : DataFrame) : bool :=
  match columns df with
  | [(name, _)] => bool_decide (name = "")
  | _ => false
  end.

(** [frame[key].loc[:, keep]]: two indexers are one too many for a Series. *)
Definition loc_item (tbl : DataFrame) (keep : list string) : result DataFrame :=
  if squeezed tbl then Err (IndexingError "Too many indexers")
  else loc_columns tbl keep.

End Pandas.
Import Pandas.

(** ** The PhenoScore core, as seen from this module *)

(** The keyword arguments of one [runPhenoScore(adata, cond1=..., ...)]
    call.  [growth_rate = None] is a call that does not pass the argument. *)
Record PhenoCall (AnnData : Type) : Type := mkCall {
  c_adata : AnnData;
  c_cond1 : string;
  c_cond2 : string;
  c_growth_rate : option spec_float;
  c_n_reps : Z;
  c_transformation : string;
  c_test : string;
  c_score_level : string
}.
Arguments mkCall {AnnData}.
Arguments c_adata {AnnData}.
Arguments c_cond1 {AnnData}.
Arguments c_cond2 {AnnData}.
Arguments c_growth_rate {AnnData}.
Arguments c_n_reps {AnnData}.
Arguments c_transformation {AnnData}.
Arguments c_test {AnnData}.
Arguments c_score_level {AnnData}.

(** ** The object *)

Record PooledScreens (AnnData : Type) : Type := mkScreens {
  adata : AnnData;
  transformation : string;
  test : string;
  n_reps : Z;
  phenotypes : gmap string MultiFrame;
  phenotype_names : list string
}.
Arguments mkScreens {AnnData}.
Arguments adata {AnnData}.
Arguments transformation {AnnData}.
Arguments test {AnnData}.
Arguments n_reps {AnnData}.
Arguments phenotypes {AnnData}.
Arguments phenotype_names {AnnData}.

(** The object after [self.phenotypes[run_name] = v]. *)
Definition with_phenotypes {AnnData} (self : PooledScreens AnnData)
    (run_name : string) (v : MultiFrame) : PooledScreens AnnData :=
  mkScreens (adata self) (transformation self) (test self) (n_reps self)
    (<[run_name := v]> (phenotypes self)) (phenotype_names self).

(** The object after [self.phenotype_names.append(name)]. *)
Definition with_name {AnnData} (self : PooledScreens AnnData) (name : string)
    : PooledScreens AnnData :=
  mkScreens (adata self) (transformation self) (test self) (n_reps self)
    (phenotypes self) (phenotype_names self ++ [name]).

(** ** Computations on the object *)

Record outcome (AnnData A : Type) : Type := mkOutcome {
  calls : list (PhenoCall AnnData);
  final : PooledScreens AnnData;
  value : result A
}.
Arguments mkOutcome {AnnData A}.
Arguments calls {AnnData A}.
Arguments final {AnnData A}.
Arguments value {AnnData A}.

Definition M (AnnData A : Type) : Type := PooledScreens AnnData -> outcome AnnData A.

Section Monad.
Context {AnnData : Type}.

Definition ret {A} (a : A) : M AnnData A :=
  fun self => mkOutcome [] self (Ok a).

Definition raise {A} (e : exn) : M AnnData A :=
  fun self => mkOutcome [] self (Err e).

(** The outcome [o] of a continuation, after the calls [cs] made before it. *)
Definition after_calls {A} (cs : list (PhenoCall AnnData)) (o : outcome AnnData A)
    : outcome AnnData A :=
  mkOutcome (cs ++ calls o) (final o) (value o).

(** An exception ends the computation; what was mutated and called before
    it stays. *)
Definition bind {A B} (m : M AnnData A) (k : A -> M AnnData B) : M AnnData B :=
  fun self =>
    match m self with
    | mkOutcome cs self' (Ok a) => after_calls cs (k a self')
    | mkOutcome cs self' (Err e) => mkOutcome cs self' (Err e)
    end.

Definition get_self : M AnnData (PooledScreens AnnData) :=
  fun self => mkOutcome [] self (Ok self).

Definition lift {A} (r : result A) : M AnnData A :=
  fun self => mkOutcome [] self r.

(** [self.phenotypes[run_name] = v] *)
Definition set_phenotypes (run_name : string) (v : MultiFrame) : M AnnData unit :=
  fun self => mkOutcome [] (with_phenotypes self run_name v) (Ok tt).

(** [self.phenotype_names.append(name)] *)
Definition append_name (name : string) : M AnnData unit :=
  fun self => mkOutcome [] (with_name self name) (Ok tt).

(** [self.phenotypes[run_name]] *)
Definition get_phenotypes (run_name : string) : M AnnData MultiFrame :=
  fun self =>
    mkOutcome [] self
      (match phenotypes self !! run_name with
       | Some mf => Ok mf
       | None => Err (KeyError [run_name])
       end).

End Monad.

Notation "'let*' x ':=' m 'in' k" := (bind m (fun x => k))
  (at level 10, x pattern, m at level 100, k at level 200, only parsing).

(** ** The class *)

(** The arguments of the three public methods. *)
Record DrugArgs : Type := mkDrugArgs {
  t0 : string;
  untreated : string;
  treated : string;
  db_untreated : spec_float;
  db_treated : spec_float;
  d_score_level : string;
  d_run_name : option string
}.

Record FlowArgs : Type := mkFlowArgs {
  low_bin : string;
  high_bin : string;
  f_score_level : string;
  f_run_name : option string
}.

Record GetArgs : Type := mkGetArgs {
  g_run_name : string;
  score_name : string;
  threshold : pynum;
  ctrl_label : string;
  target_col : string;
  pvalue_column : string;
  score_column : string
}.

(** [getPhenotypeScores(run_name, score_name)] with every default. *)
Definition default_get (run_name score_name : string) : GetArgs :=
  mkGetArgs run_name score_name (PyInt 5) "negCtrl" "target" "ttest pvalue" "score".

(** [if not run_name: run_name = score_level]: [None] and the empty string
    are both falsy. *)
Definition effective_run_name (run_name : option string) (score_level : string) : string :=
  match run_name with
  | None => score_level
  | Some "" => score_level
  | Some r => r
  end.

(** The divisor passed for rho: [np.abs(db_untreated - db_treated)]. *)
Definition rho_growth_rate (db_u db_t : spec_float) : spec_float :=
  PyFloat.abs (PyFloat.sub db_u db_t).

Definition duplicate_message (phenotype_name : string) : string :=
  "Phenotype '" +:+ phenotype_name +:+ "' already exists in self.phenotype_names!".

Definition not_found_message (score_name : string) : string :=
  "Phenotype '" +:+ score_name +:+ "' not found in self.phenotype_names".

Section Class.
Context {AnnData : Type}.

(** [screenpro.phenoscore.runPhenoScore] and [screenpro.utils.ann_score_df]
    are imported by the module; the class is parametric in them.  Either
    may raise.  Neither is handed the object: [runPhenoScore] gets
    [self.adata] and keyword arguments, [ann_score_df] a table that [.loc],
    [.set_index] and [.rename] have built anew from the stored one.  The
    class is parametric, too, in what pandas does where the model of
    [Pandas] leaves it open. *)
Variable runPhenoScore : PhenoCall AnnData -> result (string * DataFrame).
Variable ann_score_df : DataFrame -> string -> pynum -> result DataFrame.
Variable px : Pandas.Rest.

Definition call_runPhenoScore (c : PhenoCall AnnData)
    : M AnnData (string * DataFrame) :=
  fun self => mkOutcome [c] self (runPhenoScore c).

(** [PooledScreens.__init__] *)
Definition init (a : AnnData) (transformation test : string) (n_reps : Z)
    : PooledScreens AnnData :=
  mkScreens a transformation test n_reps ∅ [].

(** [PooledScreens(adata)] with the default keyword arguments. *)
Definition init_default (a : AnnData) : PooledScreens AnnData :=
  init a "log2(x+1)" "ttest" 3.

Definition _add_phenotype_results (phenotype_name : string) : M AnnData unit :=
  let* self := get_self in
  if bool_decide (phenotype_name ∈ phenotype_names self)
  then raise (ValueError (duplicate_message phenotype_name))
  else append_name phenotype_name.

Definition gamma_call (self : PooledScreens AnnData) (a : DrugArgs) : PhenoCall AnnData :=
  mkCall (adata self) (t0 a) (untreated a) (Some (db_untreated a))
    (n_reps self) (transformation self) (test self) (d_score_level a).

Definition tau_call (self : PooledScreens AnnData) (a : DrugArgs) : PhenoCall AnnData :=
  mkCall (adata self) (t0 a) (treated a) (Some (db_treated a))
    (n_reps self) (transformation self) (test self) (d_score_level a).

Definition rho_call (self : PooledScreens AnnData) (a : DrugArgs) : PhenoCall AnnData :=
  mkCall (adata self) (untreated a) (treated a)
    (Some (rho_growth_rate (db_untreated a) (db_treated a)))
    (n_reps self) (transformation self) (test self) (d_score_level a).

Definition delta_call (self : PooledScreens AnnData) (a : FlowArgs) : PhenoCall AnnData :=
  mkCall (adata self) (low_bin a) (high_bin a) None
    (n_reps self) (transformation self) (test self) (f_score_level a).

Definition calculateDrugScreen (a : DrugArgs) : M AnnData unit :=
  let* self := get_self in
  let* (gamma_name, gamma) := call_runPhenoScore (gamma_call self a) in
  let* self := get_self in
  let* (tau_name, tau) := call_runPhenoScore (tau_call self a) in
  let* self := get_self in
  let* (rho_name, rho) := call_runPhenoScore (rho_call self a) in
  let run_name := effective_run_name (d_run_name a) (d_score_level a) in
  let* stored := lift (concat_axis1 px [("gamma:" +:+ gamma_name, gamma);
                                        ("tau:" +:+ tau_name, tau);
                                        ("rho:" +:+ rho_name, rho)]) in
  let* _ := set_phenotypes run_name stored in
  let* _ := _add_phenotype_results ("gamma:" +:+ gamma_name) in
  let* _ := _add_phenotype_results ("tau:" +:+ tau_name) in
  _add_phenotype_results ("rho:" +:+ rho_name).

Definition calculateFlowBasedScreen (a : FlowArgs) : M AnnData unit :=
  let* self := get_self in
  let* (delta_name, delta) := call_runPhenoScore (delta_call self a) in
  let run_name := effective_run_name (f_run_name a) (f_score_level a) in
  let* stored := lift (concat_axis1 px [("delta:" +:+ delta_name, delta)]) in
  let* _ := set_phenotypes run_name stored in
  _add_phenotype_results ("delta:" +:+ delta_name).

Definition getPhenotypeScores (a : GetArgs) : M AnnData DataFrame :=
  let* self := get_self in
  if negb (bool_decide (score_name a ∈ phenotype_names self))
  then raise (ValueError (not_found_message (score_name a)))
  else
    let keep_col := [target_col a; pvalue_column a; score_column a] in
    let* run := get_phenotypes (g_run_name a) in
    let* tbl := lift (getitem run (score_name a)) in
    let* sel := lift (loc_item tbl keep_col) in
    let* idx := lift (set_index px sel "target") in
    lift (ann_score_df (rename_columns idx (pvalue_column a) "pvalue")
            (ctrl_label a) (threshold a)).

End Class.

Arguments call_runPhenoScore {AnnData} runPhenoScore c.
Arguments calculateDrugScreen {AnnData} runPhenoScore px a.
Arguments calculateFlowBasedScreen {AnnData} runPhenoScore px a.
Arguments getPhenotypeScores {AnnData} ann_score_df px a.

(** The dictionary a drug screen hands to [pd.concat], and the one a flow
    screen hands to it. *)
Definition drug_entries (gn : string) (g : DataFrame) (tn : string) (t : DataFrame)
    (rn : string) (r : DataFrame) : list (string * DataFrame) :=
  [("gamma:" +:+ gn, g); ("tau:" +:+ tn, t); ("rho:" +:+ rn, r)].

Definition flow_entries (dn : string) (d : DataFrame) : list (string * DataFrame) :=
  [("delta:" +:+ dn, d)].

(** What a flow screen stores: the sub-frame of its one table, or nothing
    when the table has no columns. *)
Definition flow_stored (dn : string) (d : DataFrame) : MultiFrame :=
  match columns d with
  | [] => []
  | _ :: _ => [("delta:" +:+ dn, d)]
  end.

Definition drug_run_name (a : DrugArgs) : string :=
  effective_run_name (d_run_name a) (d_score_level a).

Definition flow_run_name (a : FlowArgs) : string :=
  effective_run_name (f_run_name a) (f_score_level a).

(** The three core calls of a drug screen, in the order they are made, and
    the object once its result has been stored. *)
Definition drug_calls {AnnData} (self : PooledScreens AnnData) (a : DrugArgs)
    : list (PhenoCall AnnData) :=
  [gamma_call self a; tau_call self a; rho_call self a].

Definition drug_stored {AnnData} (self : PooledScreens AnnData) (a : DrugArgs)
    (stored : MultiFrame) : PooledScreens AnnData :=
  with_phenotypes self (drug_run_name a) stored.

(** ** Sequences of scoring calls *)

Inductive scoring_call : Type :=
  | Drug (a : DrugArgs)
  | Flow (a : FlowArgs).

Definition run_call {AnnData} (core : PhenoCall AnnData -> result (string * DataFrame))
    (px : Pandas.Rest) (c : scoring_call) : M AnnData unit :=
  match c with
  | Drug a => calculateDrugScreen core px a
  | Flow a => calculateFlowBasedScreen core px a
  end.

(** The key of [self.phenotypes] a scoring call assigns. *)
Definition call_run_name (c : scoring_call) : string :=
  match c with
  | Drug a => drug_run_name a
  | Flow a => flow_run_name a
  end.

(** The object after the calls of [cs], made one after the other, when every
    one of them returns; [None] as soon as one raises. *)
Fixpoint run_successful {AnnData}
    (core : PhenoCall AnnData -> result (string * DataFrame)) (px : Pandas.Rest)
    (cs : list scoring_call) (self : PooledScreens AnnData)
    : option (PooledScreens AnnData) :=
  match cs with
  | [] => Some self
  | c :: rest =>
      let o := run_call core px c self in
      match value o with
      | Ok _ => run_successful core px rest (final o)
      | Err _ => None
      end
  end.

(** ** Stand-ins for the imported functions, for the examples *)

Module Demo.

(** The sample metadata an example needs: the condition labels present. *)
Definition AnnData : Type := list string.

Definition score_table : DataFrame :=
  mkFrame None [CStr "sg1"; CStr "sg2"; CStr "sg3"]
    [("target", [CStr "GeneA"; CStr "GeneB"; CStr "negCtrl"]);
     ("gene", [CStr "ENSG01"; CStr "ENSG02"; CStr "negCtrl"]);
     ("ttest pvalue", [CNum PyFloat.one; CNum PyFloat.one; CNum PyFloat.one]);
     ("score", [CNum PyFloat.two; CNum PyFloat.one; CNum PyFloat.pos_zero])].

(** Modelled from the spec: [screenpro.phenoscore.runPhenoScore] is
    imported, not defined, by the module.  The stand-in names a score
    [<cond1>_vs_<cond2>] and raises when a condition is not in the sample
    metadata. *)
Definition runPhenoScore (c : PhenoCall AnnData) : result (string * DataFrame) :=
  if bool_decide (c_cond1 c ∈ c_adata c) && bool_decide (c_cond2 c ∈ c_adata c)
  then Ok (c_cond1 c +:+ "_vs_" +:+ c_cond2 c, score_table)
  else Err (CoreError "MissingConditionError").

(** Modelled from the spec: [screenpro.utils.ann_score_df] is imported, not
    defined, by the module.  The stand-in needs the canonical [score] and
    [pvalue] columns and adds a [label] column. *)
Definition ann_score_df (df : DataFrame) (ctrl_label : string) (threshold : pynum)
    : result DataFrame :=
  match get_column (columns df) "score", get_column (columns df) "pvalue" with
  | Some sc, Some _ =>
      Ok (mkFrame (index_name df) (index df)
            (columns df ++ [("label", map (fun _ => CStr "target_non_hit") sc)]))
  | None, _ => Err (KeyError ["score"])
  | _, None => Err (KeyError ["pvalue"])
  end.

(** The value of a column at a row label; NaN when the frame has no such row. *)
Fixpoint value_at (labels values : list cell) (label : cell) : cell :=
  match labels, values with
  | l :: ls, v :: vs => if bool_decide (l = label) then v else value_at ls vs label
  | _, _ => CNum S754_nan
  end.

(** The row labels of the frames, each once, in the order of their first
    occurrence. *)
Fixpoint union_labels (seen : list cell) (labels : list cell) : list cell :=
  match labels with
  | [] => []
  | l :: rest =>
      if bool_decide (l ∈ seen) then union_labels seen rest
      else l :: union_labels (l :: seen) rest
  end.

(** A stand-in for the alignment of [pd.concat]: every frame on the union
    of the row labels, NaN where it has no such row; an error when a frame
    repeats a row label.  And a stand-in for [set_index] on a repeated
    label.  The examples on [score_table] reach neither. *)
Definition reindex_rows (frames : list DataFrame) : result (list DataFrame) :=
  if forallb (fun f => bool_decide (NoDup (index f))) frames
  then
    let union := union_labels [] (concat (map index frames)) in
    Ok (map (fun f =>
               mkFrame (unanimous_name frames) union
                 (map (fun c => (c.1, map (value_at (index f) c.2) union)) (columns f)))
          frames)
  else Err (InvalidIndexError "Reindexing only valid with uniquely valued Index objects").

Definition px : Pandas.Rest :=
  mkRest reindex_rows
    (fun _ _ => Err (ValueError "Index data must be 1-dimensional")).

Definition samples : AnnData :=
  ["T0"; "untreated"; "treated"; "vehicle"; "low"; "high"].

Definition screen0 : PooledScreens AnnData := init_default samples.

Definition drug1 : DrugArgs :=
  mkDrugArgs "T0" "untreated" "treated" PyFloat.one PyFloat.two "sgRNA" None.

(** Same baseline and treated arm, another untreated arm, another run. *)
Definition drug2 : DrugArgs :=
  mkDrugArgs "T0" "vehicle" "treated" PyFloat.one PyFloat.two "sgRNA" (Some "second").

Definition drug_equal : DrugArgs :=
  mkDrugArgs "T0" "untreated" "treated" PyFloat.one PyFloat.one "sgRNA" None.

Definition drug_inf : DrugArgs :=
  mkDrugArgs "T0" "untreated" "treated" PyFloat.pos_inf PyFloat.pos_inf "sgRNA" None.

Definition drug_missing : DrugArgs :=
  mkDrugArgs "day0" "untreated" "treated" PyFloat.one PyFloat.two "sgRNA" None.

Definition flow1 : FlowArgs := mkFlowArgs "low" "high" "sgRNA" None.

Definition flow2 : FlowArgs := mkFlowArgs "low" "high" "sgRNA" (Some "sorted").

(** The object after [calculateDrugScreen('T0', 'untreated', 'treated', 1.0,
    2.0, 'sgRNA')]. *)
Definition screen1 : PooledScreens AnnData :=
  final (calculateDrugScreen runPhenoScore px drug1 screen0).

(** ... followed by [calculateFlowBasedScreen('low', 'high', 'sgRNA',
    run_name='sorted')]. *)
Definition screen2 : PooledScreens AnnData :=
  final (calculateFlowBasedScreen runPhenoScore px flow2 screen1).

Definition get_rho : GetArgs := default_get "sgRNA" "rho:untreated_vs_treated".

(** [getPhenotypeScores('sgRNA', 'rho:untreated_vs_treated',
    target_col='gene')] *)
Definition get_rho_by_gene : GetArgs :=
  mkGetArgs "sgRNA" "rho:untreated_vs_treated" (PyInt 5) "negCtrl"
    "gene" "ttest pvalue" "score".

(** [getPhenotypeScores('sorted', 'rho:untreated_vs_treated')] *)
Definition get_rho_in_sorted : GetArgs :=
  default_get "sorted" "rho:untreated_vs_treated".

(** A core whose tables come with row labels of their own, repeated ones
    among them: the gamma table is on the elements it scored twice. *)
Definition ragged_table (cond2 : string) : DataFrame :=
  if bool_decide (cond2 = "untreated")
  then mkFrame None [CStr "sg1"; CStr "sg1"]
         [("target", [CStr "GeneA"; CStr "GeneA"]);
          ("ttest pvalue", [CNum PyFloat.one; CNum PyFloat.one]);
          ("score", [CNum PyFloat.two; CNum PyFloat.one])]
  else mkFrame None [CStr "sg1"; CStr "sg2"]
         [("target", [CStr "GeneA"; CStr "GeneB"]);
          ("ttest pvalue", [CNum PyFloat.one; CNum PyFloat.one]);
          ("score", [CNum PyFloat.two; CNum PyFloat.one])].

Definition runPhenoScore_ragged (c : PhenoCall AnnData) : result (string * DataFrame) :=
  Ok (c_cond1 c +:+ "_vs_" +:+ c_cond2 c, ragged_table (c_cond2 c)).


End Demo.

(** ** Retrieval, once the table is found *)

(** What [getPhenotypeScores] does with [self.phenotypes[run_name][score_name]]:
    the column selection, the index, the rename and [ann_score_df]. *)
Definition annotate_table (ann_score_df : DataFrame -> string -> pynum -> result DataFrame)
    (px : Pandas.Rest) (a : GetArgs) (tbl : DataFrame) : result DataFrame :=
  match loc_item tbl [target_col a; pvalue_column a; score_column a] with
  | Err e => Err e
  | Ok sel =>
      match set_index px sel "target" with
      | Err e => Err e
      | Ok idx =>
          ann_score_df (rename_columns idx (pvalue_column a) "pvalue")
            (ctrl_label a) (threshold a)
      end
  end.

(** The object after several [self.phenotype_names.append], in order. *)
Definition with_names {AnnData} (self : PooledScreens AnnData) (names : list string)
    : PooledScreens AnnData :=
  mkScreens (adata self) (transformation self) (test self) (n_reps self)
    (phenotypes self) (phenotype_names self ++ names).

(** ** Sessions *)

(** The object after the calls of [cs], made one after the other by a caller
    that catches what they raise and goes on. *)
Fixpoint run_session {AnnData}
    (core : PhenoCall AnnData -> result (string * DataFrame)) (px : Pandas.Rest)
    (cs : list scoring_call) (self : PooledScreens AnnData)
    : PooledScreens AnnData :=
  match cs with
  | [] => self
  | c :: rest => run_session core px rest (final (run_call core px c self))
  end.

(** Every label of every stored result is a registered label. *)
Definition labels_registered {AnnData} (self : PooledScreens AnnData) : Prop :=
  forall run mf label,
    phenotypes self !! run = Some mf ->
    label ∈ mf.*1 ->
    label ∈ phenotype_names self.

(** The score level a scoring call is given. *)
Definition call_score_level (c : scoring_call) : string :=
  match c with
  | Drug a => d_score_level a
  | Flow a => f_score_level a
  end.

(** ** Objects that share their registry *)

Module Heap.

(** The attribute dictionary of an instance.  The two registry attributes
    hold references: the dictionary and the list live in the heap and are
    mutated in place ([self.phenotypes[k] = v], [self.phenotype_names.append]);
    no method rebinds an attribute. *)
Record Attrs (AnnData : Type) : Type := mkAttrs {
  a_adata : AnnData;
  a_transformation : string;
  a_test : string;
  a_n_reps : Z;
  a_phenotypes : nat;
  a_phenotype_names : nat
}.
Arguments mkAttrs {AnnData}.
Arguments a_adata {AnnData}.
Arguments a_transformation {AnnData}.
Arguments a_test {AnnData}.
Arguments a_n_reps {AnnData}.
Arguments a_phenotypes {AnnData}.
Arguments a_phenotype_names {AnnData}.

(** Instances, dictionaries and lists, each addressed by its position. *)
Record heap (AnnData : Type) : Type := mkHeap {
  objects : list (Attrs AnnData);
  dicts : list (gmap string MultiFrame);
  name_lists : list (list string)
}.
Arguments mkHeap {AnnData}.
Arguments objects {AnnData}.
Arguments dicts {AnnData}.
Arguments name_lists {AnnData}.

Definition empty {AnnData} : heap AnnData := mkHeap [] [] [].

(** [PooledScreens(adata, transformation, test, n_reps)]: [__init__] binds a
    new empty dictionary and a new empty list. *)
Definition new_screens {AnnData} (h : heap AnnData) (a : AnnData)
    (transformation test : string) (n_reps : Z) : heap AnnData * nat :=
  (mkHeap
     (objects h ++ [mkAttrs a transformation test n_reps
                      (length (dicts h)) (length (name_lists h))])
     (dicts h ++ [∅])
     (name_lists h ++ [[]]),
   length (objects h)).

(** [o.copy()], that is [copy.copy(o)]: a new instance whose attributes are
    bound to the same values, the dictionary and the list included. *)
Definition copy {AnnData} (h : heap AnnData) (o : nat) : option (heap AnnData * nat) :=
  match objects h !! o with
  | Some attrs =>
      Some (mkHeap (objects h ++ [attrs]) (dicts h) (name_lists h), length (objects h))
  | None => None
  end.

(** The instance as the methods see it. *)
Definition load {AnnData} (h : heap AnnData) (o : nat) : option (PooledScreens AnnData) :=
  match objects h !! o with
  | Some attrs =>
      match dicts h !! a_phenotypes attrs, name_lists h !! a_phenotype_names attrs with
      | Some d, Some l =>
          Some (mkScreens (a_adata attrs) (a_transformation attrs) (a_test attrs)
                  (a_n_reps attrs) d l)
      | _, _ => None
      end
  | None => None
  end.

(** The in-place mutations of a method, written to the dictionary and the
    list the instance refers to. *)
Definition store {AnnData} (h : heap AnnData) (o : nat) (s : PooledScreens AnnData)
    : heap AnnData :=
  match objects h !! o with
  | Some attrs =>
      mkHeap (objects h)
        (<[a_phenotypes attrs := phenotypes s]> (dicts h))
        (<[a_phenotype_names attrs := phenotype_names s]> (name_lists h))
  | None => h
  end.

(** [o.method(...)] *)
Definition invoke {AnnData A} (m : M AnnData A) (h : heap AnnData) (o : nat)
    : option (heap AnnData * outcome AnnData A) :=
  match load h o with
  | Some s => let out := m s in Some (store h o (final out), out)
  | None => None
  end.

End Heap.

(** ** More of the small screen *)

Module Session.

(** A stand-in core whose tables lack the p-value column. *)
Definition table_without_pvalue : DataFrame :=
  mkFrame None [CStr "sg1"; CStr "sg2"]
    [("target", [CStr "GeneA"; CStr "negCtrl"]);
     ("score", [CNum PyFloat.two; CNum PyFloat.pos_zero])].

Definition runPhenoScore_bare (c : PhenoCall Demo.AnnData) : result (string * DataFrame) :=
  Ok (c_cond1 c +:+ "_vs_" +:+ c_cond2 c, table_without_pvalue).

(** A drug screen given the empty string as its run name. *)
Definition drug_empty_run : DrugArgs :=
  mkDrugArgs "T0" "untreated" "treated" PyFloat.one PyFloat.two "sgRNA" (Some "").

(** The object after [Demo.drug1] and the failed [Demo.drug2]. *)
Definition screen_after_failure : PooledScreens Demo.AnnData :=
  final (calculateDrugScreen Demo.runPhenoScore Demo.px Demo.drug2 Demo.screen1).

Definition get_rho_second : GetArgs := default_get "second" "rho:vehicle_vs_treated".

Definition get_delta : GetArgs := default_get "sorted" "delta:low_vs_high".

(** The object after a flow screen whose core gave tables without p-values. *)
Definition screen_bare : PooledScreens Demo.AnnData :=
  final (calculateFlowBasedScreen runPhenoScore_bare Demo.px Demo.flow1 Demo.screen0).

Definition get_delta_bare : GetArgs := default_get "sgRNA" "delta:low_vs_high".

(** A heap with one screen. *)
Definition heap1 : Heap.heap Demo.AnnData :=
  (Heap.new_screens Heap.empty Demo.samples "log2(x+1)" "ttest" 3).1.

End Session.

(** * Properties *)

Ltac by_evaluation := vm_compute; reflexivity.
Ltac decided := apply (bool_decide_unpack _); vm_compute; exact I.

(** ** Score names *)

(** The three labels of a drug screen differ by their prefix, whatever the
    core returns. *)
Lemma gamma_neq_tau (x y : string) : "gamma:" +:+ x ≠ "tau:" +:+ y.
Proof. cbn. discriminate. Qed.

Lemma gamma_neq_rho (x y : string) : "gamma:" +:+ x ≠ "rho:" +:+ y.
Proof. cbn. discriminate. Qed.

Lemma tau_neq_rho (x y : string) : "tau:" +:+ x ≠ "rho:" +:+ y.
Proof. cbn. discriminate. Qed.

(** So the dictionary handed to [pd.concat] has three keys. *)
Lemma drug_entries_keys_distinct (gn tn rn : string) (g t r : DataFrame) :
  NoDup (drug_entries gn g tn t rn r).*1.
Proof.
  unfold drug_entries. cbn [fmap list_fmap fst].
  repeat apply NoDup_cons_2; rewrite ?not_elem_of_cons; try apply NoDup_nil_2;
    repeat split; try apply not_elem_of_nil;
    first [apply gamma_neq_tau | apply gamma_neq_rho | apply tau_neq_rho].
Qed.

(** ** Tables *)

Lemma getitem_missing (mf : MultiFrame) (key : string) :
  key ∉ mf.*1 -> getitem mf key = Err (KeyError [key]).
Proof.
  induction mf as [|[k t] mf IH]; cbn; [done|].
  rewrite not_elem_of_cons. intros [Hne Hnot].
  rewrite bool_decide_eq_false_2 by congruence. by apply IH.
Qed.

Lemma keyed_keys (keys : list string) (frames : list DataFrame) (k : string) :
  k ∈ (keyed keys frames).*1 -> k ∈ keys.
Proof.
  unfold keyed. revert frames.
  induction keys as [|k0 keys IH]; intros [|f frames]; cbn;
    try by intros ?%elem_of_nil.
  destruct (columns f); cbn.
  - intros Hk. apply elem_of_cons. right. by eapply IH.
  - intros [->|Hk]%elem_of_cons; apply elem_of_cons; [by left|right; by eapply IH].
Qed.

(** The outer labels of a concatenation are among the dictionary keys. *)
Lemma concat_keys (px : Pandas.Rest) (parts : list (string * DataFrame))
    (stored : MultiFrame) (k : string) :
  concat_axis1 px parts = Ok stored -> k ∈ stored.*1 -> k ∈ parts.*1.
Proof.
  unfold concat_axis1. destruct parts as [|p parts]; [done|].
  destruct (same_rows _).
  - intros [= <-]. apply keyed_keys.
  - destruct (reindex_rows px _) as [frames'|e]; [|done].
    intros [= <-]. apply keyed_keys.
Qed.

(** One frame is always concatenated as it is. *)
Lemma concat_single (px : Pandas.Rest) (k : string) (d : DataFrame) :
  concat_axis1 px [(k, d)]
  = Ok (match columns d with [] => [] | _ :: _ => [(k, d)] end).
Proof. destruct d as [n i [|c cs]]; reflexivity. Qed.

(** Three frames with the same row labels. *)
Lemma concat_three (px : Pandas.Rest) (kg kt kr : string) (g t r : DataFrame) :
  index t = index g ->
  index r = index g ->
  concat_axis1 px [(kg, g); (kt, t); (kr, r)]
  = Ok (keyed [kg; kt; kr] (map (concat_member [g; t; r]) [g; t; r])).
Proof.
  intros Ht Hr. unfold concat_axis1, same_rows. cbn.
  by rewrite !bool_decide_eq_true_2 by done.
Qed.

Lemma no_column_labelled (cols : list (string * list cell)) (name : string) :
  has_column cols name = false <-> columns_labelled cols name = [].
Proof.
  unfold has_column, columns_labelled.
  induction cols as [|[n v] cols IH]; cbn; [done|].
  case_bool_decide; cbn; [done|exact IH].
Qed.

Lemma no_column_get (cols : list (string * list cell)) (name : string) :
  get_column cols name = None <-> has_column cols name = false.
Proof. unfold has_column. by destruct (get_column cols name). Qed.

Lemma labelled_twice (cols : list (string * list cell)) (n m : string) :
  n <> m -> columns_labelled (columns_labelled cols n) m = [].
Proof.
  intros Hne. unfold columns_labelled.
  induction cols as [|[l v] cols IH]; cbn; [done|].
  case_bool_decide as Hl; cbn; [|done].
  rewrite bool_decide_eq_false_2 by congruence. done.
Qed.

Lemma labelled_app (c1 c2 : list (string * list cell)) (m : string) :
  columns_labelled (c1 ++ c2) m = columns_labelled c1 m ++ columns_labelled c2 m.
Proof. unfold columns_labelled. apply List.filter_app. Qed.

(** No column of a selection carries a label that was not asked for. *)
Lemma select_other (cols : list (string * list cell)) (keep : list string) (m : string) :
  m ∉ keep -> columns_labelled (select_columns cols keep) m = [].
Proof.
  unfold select_columns. induction keep as [|n keep IH]; cbn [flat_map]; [done|].
  rewrite not_elem_of_cons. intros [Hne Hnot].
  rewrite labelled_app, labelled_twice by done. by apply IH.
Qed.

(** [.loc] returns when every label asked for is a column. *)
Lemma loc_columns_found (df : DataFrame) (keep : list string) :
  (forall n, n ∈ keep -> has_column (columns df) n = true) ->
  loc_columns df keep
  = Ok (mkFrame (index_name df) (index df) (select_columns (columns df) keep)).
Proof.
  intros Hall. unfold loc_columns.
  assert (Hnone : List.filter (fun n => negb (has_column (columns df) n)) keep = []).
  { induction keep as [|n keep IH]; cbn; [done|].
    rewrite Hall by (apply elem_of_cons; by left). cbn.
    apply IH. intros m Hm. apply Hall. apply elem_of_cons. by right. }
  by rewrite Hnone.
Qed.

Lemma unique_labels_elem (l : list string) (x : string) :
  x ∈ unique_labels l <-> x ∈ l.
Proof.
  induction l as [|y l IH]; cbn; [done|].
  rewrite !elem_of_cons, list_elem_of_In, filter_In, <- list_elem_of_In, IH.
  destruct (decide (x = y)) as [->|Hne]; [tauto|].
  rewrite bool_decide_eq_false_2 by done. cbn. tauto.
Qed.

Lemma filter_keeps_all {A} (f : A -> bool) (l : list A) :
  length (List.filter f l) = length l -> List.filter f l = l.
Proof.
  induction l as [|x l IH]; cbn; [done|].
  destruct (f x); cbn.
  - intros [= Hlen]. by rewrite IH.
  - intros Hlen. pose proof (List.filter_length_le f l). lia.
Qed.

(** [.loc] raises when a label asked for is no column, and names it. *)
Lemma loc_columns_missing (df : DataFrame) (keep : list string) (k : string) :
  k ∈ keep ->
  has_column (columns df) k = false ->
  exists missing,
    loc_columns df keep = Err (KeyError missing)
    /\ k ∈ missing
    /\ (forall m, m ∈ missing -> m ∈ keep /\ has_column (columns df) m = false).
Proof.
  intros Hk Hnot. unfold loc_columns.
  set (missing := List.filter _ keep).
  assert (Hin : forall m, m ∈ missing <-> m ∈ keep /\ has_column (columns df) m = false).
  { intros m. subst missing. rewrite !list_elem_of_In, filter_In.
    destruct (has_column (columns df) m); cbn; intuition congruence. }
  assert (Hkm : k ∈ missing) by by apply Hin.
  destruct missing as [|m0 rest] eqn:Hm; [by apply elem_of_nil in Hkm|].
  eexists. split; [reflexivity|].
  destruct (Nat.eqb _ _) eqn:Hlen.
  - split; [done|]. intros m Hmk. split; [done|].
    apply Hin. rewrite <- Hm. subst missing.
    rewrite filter_keeps_all; [done|].
    apply Nat.eqb_eq in Hlen. by rewrite Hm.
  - split; [by apply unique_labels_elem|].
    intros m Hmu. apply Hin. by apply unique_labels_elem.
Qed.

(** ** Doubling rates *)

(** [x == y] on floats that are not infinite forces [x - y] to be a zero,
    of either sign. *)
Lemma float_sub_equal_finite (x y : spec_float) :
  PyFloat.is_finite x = true ->
  PyFloat.eqb x y = true ->
  exists s, PyFloat.sub x y = S754_zero s.
Proof.
  unfold PyFloat.eqb, SFeqb, PyFloat.sub.
  destruct x as [sx|sx| |sx mx ex], y as [sy|sy| |sy my ey]; cbn; try discriminate.
  all: try (intros _; destruct sx; discriminate).
  all: try (intros _; destruct sy; discriminate).
  - intros _ _. destruct sx, sy; eauto.
  - intros _ Heq.
    assert (sx = sy /\ (ex ?= ey)%Z = Eq /\ (mx ?= my)%positive = Eq)
      as (-> & He & Hm).
    { destruct sx, sy; try discriminate;
        destruct (ex ?= ey)%Z; try discriminate;
        rewrite Pos.compare_cont_spec in Heq; cbn in Heq;
        destruct (mx ?= my)%positive; try discriminate; done. }
    apply Z.compare_eq in He as ->. apply Pos.compare_eq in Hm as ->.
    rewrite Z.sub_diag. cbn. eauto.
Qed.

Lemma rho_growth_rate_equal_finite (x y : spec_float) :
  PyFloat.is_finite x = true ->
  PyFloat.eqb x y = true ->
  rho_growth_rate x y = PyFloat.pos_zero.
Proof.
  intros Hfin Heq. unfold rho_growth_rate.
  destruct (float_sub_equal_finite x y Hfin Heq) as [s ->]. reflexivity.
Qed.

Section Properties.
Context {AnnData : Type}.
Variable runPhenoScore : PhenoCall AnnData -> result (string * DataFrame).
Variable ann_score_df : DataFrame -> string -> pynum -> result DataFrame.
Variable px : Pandas.Rest.
Implicit Types (self : PooledScreens AnnData) (e : exn).
Implicit Types (gn tn rn dn : string) (g t r d : DataFrame).
Implicit Types (stored : MultiFrame).

(** *** Running a computation step by step *)

Lemma after_calls_nil {A} (o : outcome AnnData A) : after_calls [] o = o.
Proof. by destruct o. Qed.

Lemma after_calls_app {A} (cs cs' : list (PhenoCall AnnData)) (o : outcome AnnData A) :
  after_calls cs (after_calls cs' o) = after_calls (cs ++ cs') o.
Proof. unfold after_calls. cbn. by rewrite app_assoc. Qed.

Lemma after_calls_quiet {A} (cs : list (PhenoCall AnnData)) self (v : result A) :
  after_calls cs (mkOutcome [] self v) = mkOutcome cs self v.
Proof. unfold after_calls. cbn. by rewrite app_nil_r. Qed.

Lemma bind_get_self {B} (k : PooledScreens AnnData -> M AnnData B) self :
  bind get_self k self = k self self.
Proof. unfold bind, get_self. apply after_calls_nil. Qed.

Lemma bind_call {B} c (k : string * DataFrame -> M AnnData B) self :
  bind (call_runPhenoScore runPhenoScore c) k self
  = match runPhenoScore c with
    | Ok a => after_calls [c] (k a self)
    | Err e => mkOutcome [c] self (Err e)
    end.
Proof. unfold bind, call_runPhenoScore. by destruct (runPhenoScore c). Qed.

Lemma bind_set_phenotypes {B} run v (k : unit -> M AnnData B) self :
  bind (set_phenotypes run v) k self = k tt (with_phenotypes self run v).
Proof. unfold bind, set_phenotypes. apply after_calls_nil. Qed.

Lemma bind_get_phenotypes {B} run (k : MultiFrame -> M AnnData B) self :
  bind (get_phenotypes run) k self
  = match phenotypes self !! run with
    | Some mf => k mf self
    | None => mkOutcome [] self (Err (KeyError [run]))
    end.
Proof.
  unfold bind, get_phenotypes.
  destruct (phenotypes self !! run); [apply after_calls_nil|done].
Qed.

Lemma bind_lift {A B} (r : result A) (k : A -> M AnnData B) self :
  bind (lift r) k self
  = match r with
    | Ok a => k a self
    | Err e => mkOutcome [] self (Err e)
    end.
Proof. unfold bind, lift. destruct r; [apply after_calls_nil|done]. Qed.

(** *** [_add_phenotype_results] *)

Lemma add_fresh self name :
  name ∉ phenotype_names self ->
  _add_phenotype_results name self = mkOutcome [] (with_name self name) (Ok tt).
Proof.
  intros Hn. unfold _add_phenotype_results. rewrite bind_get_self.
  rewrite bool_decide_eq_false_2 by done. reflexivity.
Qed.

Lemma bind_add_fresh {B} name (k : unit -> M AnnData B) self :
  name ∉ phenotype_names self ->
  bind (_add_phenotype_results name) k self = k tt (with_name self name).
Proof.
  intros Hn. unfold bind at 1. rewrite add_fresh by done. apply after_calls_nil.
Qed.

Lemma add_duplicate self name :
  name ∈ phenotype_names self ->
  _add_phenotype_results name self
  = mkOutcome [] self (Err (ValueError (duplicate_message name))).
Proof.
  intros Hn. unfold _add_phenotype_results. rewrite bind_get_self.
  rewrite bool_decide_eq_true_2 by done. reflexivity.
Qed.

Lemma bind_add_duplicate {B} name (k : unit -> M AnnData B) self :
  name ∈ phenotype_names self ->
  bind (_add_phenotype_results name) k self
  = mkOutcome [] self (Err (ValueError (duplicate_message name))).
Proof. intros Hn. unfold bind at 1. by rewrite add_duplicate. Qed.

(** *** [calculateDrugScreen], path by path *)

Lemma drug_gamma_raises self a e :
  runPhenoScore (gamma_call self a) = Err e ->
  calculateDrugScreen runPhenoScore px a self
  = mkOutcome [gamma_call self a] self (Err e).
Proof.
  intros Hg. unfold calculateDrugScreen.
  rewrite bind_get_self, bind_call, Hg. reflexivity.
Qed.

Lemma drug_tau_raises self a gn g e :
  runPhenoScore (gamma_call self a) = Ok (gn, g) ->
  runPhenoScore (tau_call self a) = Err e ->
  calculateDrugScreen runPhenoScore px a self
  = mkOutcome [gamma_call self a; tau_call self a] self (Err e).
Proof.
  intros Hg Ht. unfold calculateDrugScreen.
  rewrite bind_get_self, bind_call, Hg. cbn beta iota.
  rewrite bind_get_self, bind_call, Ht. reflexivity.
Qed.

Lemma drug_rho_raises self a gn g tn t e :
  runPhenoScore (gamma_call self a) = Ok (gn, g) ->
  runPhenoScore (tau_call self a) = Ok (tn, t) ->
  runPhenoScore (rho_call self a) = Err e ->
  calculateDrugScreen runPhenoScore px a self
  = mkOutcome [gamma_call self a; tau_call self a; rho_call self a] self (Err e).
Proof.
  intros Hg Ht Hr. unfold calculateDrugScreen.
  rewrite bind_get_self, bind_call, Hg. cbn beta iota.
  rewrite bind_get_self, bind_call, Ht. cbn beta iota.
  rewrite bind_get_self, bind_call, Hr. reflexivity.
Qed.

(** Once the three computations have returned, the tables are concatenated;
    if that returns, the run is stored and the three labels go through
    [_add_phenotype_results] in order. *)
Lemma drug_core_returns self a gn g tn t rn r :
  runPhenoScore (gamma_call self a) = Ok (gn, g) ->
  runPhenoScore (tau_call self a) = Ok (tn, t) ->
  runPhenoScore (rho_call self a) = Ok (rn, r) ->
  calculateDrugScreen runPhenoScore px a self
  = after_calls (drug_calls self a)
      match concat_axis1 px (drug_entries gn g tn t rn r) with
      | Err e => mkOutcome [] self (Err e)
      | Ok stored =>
          (let* _ := _add_phenotype_results ("gamma:" +:+ gn) in
           let* _ := _add_phenotype_results ("tau:" +:+ tn) in
           _add_phenotype_results ("rho:" +:+ rn))
            (drug_stored self a stored)
      end.
Proof.
  intros Hg Ht Hr. unfold calculateDrugScreen.
  rewrite bind_get_self, bind_call, Hg. cbn beta iota.
  rewrite bind_get_self, bind_call, Ht. cbn beta iota.
  rewrite bind_get_self, bind_call, Hr. cbn beta iota zeta.
  rewrite bind_lift, !after_calls_app.
  change (concat_axis1 px _) with (concat_axis1 px (drug_entries gn g tn t rn r)).
  destruct (concat_axis1 px (drug_entries gn g tn t rn r)) as [stored|e]; [|reflexivity].
  rewrite bind_set_phenotypes. reflexivity.
Qed.

Section DrugReturns.
Variables (self : PooledScreens AnnData) (a : DrugArgs).
Variables (gn tn rn : string) (g t r : DataFrame).
Hypothesis Hg : runPhenoScore (gamma_call self a) = Ok (gn, g).
Hypothesis Ht : runPhenoScore (tau_call self a) = Ok (tn, t).
Hypothesis Hr : runPhenoScore (rho_call self a) = Ok (rn, r).

Lemma drug_concat_raises e :
  concat_axis1 px (drug_entries gn g tn t rn r) = Err e ->
  calculateDrugScreen runPhenoScore px a self
  = mkOutcome (drug_calls self a) self (Err e).
Proof using Hg Ht Hr.
  intros Hc. rewrite (drug_core_returns _ _ _ _ _ _ _ _ Hg Ht Hr), Hc.
  by rewrite after_calls_quiet.
Qed.

Variable stored : MultiFrame.
Hypothesis Hc : concat_axis1 px (drug_entries gn g tn t rn r) = Ok stored.

Lemma drug_registers_all :
  "gamma:" +:+ gn ∉ phenotype_names self ->
  "tau:" +:+ tn ∉ phenotype_names self ->
  "rho:" +:+ rn ∉ phenotype_names self ->
  calculateDrugScreen runPhenoScore px a self
  = mkOutcome (drug_calls self a)
      (with_name (with_name (with_name (drug_stored self a stored) ("gamma:" +:+ gn))
                    ("tau:" +:+ tn))
         ("rho:" +:+ rn))
      (Ok tt).
Proof using Hg Ht Hr Hc.
  intros HG HT HR. rewrite (drug_core_returns _ _ _ _ _ _ _ _ Hg Ht Hr), Hc.
  rewrite bind_add_fresh by done. rewrite bind_add_fresh.
  - rewrite add_fresh; [by rewrite after_calls_quiet|].
    cbn. rewrite !elem_of_app, !list_elem_of_singleton.
    intros [[?|H]|H]; [done| |]; cbn in H; discriminate H.
  - cbn. rewrite elem_of_app, list_elem_of_singleton.
    intros [?|H]; [done|]. cbn in H. discriminate H.
Qed.

Lemma drug_gamma_duplicate :
  "gamma:" +:+ gn ∈ phenotype_names self ->
  calculateDrugScreen runPhenoScore px a self
  = mkOutcome (drug_calls self a) (drug_stored self a stored)
      (Err (ValueError (duplicate_message ("gamma:" +:+ gn)))).
Proof using Hg Ht Hr Hc.
  intros HG. rewrite (drug_core_returns _ _ _ _ _ _ _ _ Hg Ht Hr), Hc.
  rewrite bind_add_duplicate by done. by rewrite after_calls_quiet.
Qed.

Lemma drug_tau_duplicate :
  "gamma:" +:+ gn ∉ phenotype_names self ->
  "tau:" +:+ tn ∈ phenotype_names self ->
  calculateDrugScreen runPhenoScore px a self
  = mkOutcome (drug_calls self a)
      (with_name (drug_stored self a stored) ("gamma:" +:+ gn))
      (Err (ValueError (duplicate_message ("tau:" +:+ tn)))).
Proof using Hg Ht Hr Hc.
  intros HG HT. rewrite (drug_core_returns _ _ _ _ _ _ _ _ Hg Ht Hr), Hc.
  rewrite bind_add_fresh by done.
  rewrite bind_add_duplicate; [by rewrite after_calls_quiet|].
  cbn. apply elem_of_app. by left.
Qed.

Lemma drug_rho_duplicate :
  "gamma:" +:+ gn ∉ phenotype_names self ->
  "tau:" +:+ tn ∉ phenotype_names self ->
  "rho:" +:+ rn ∈ phenotype_names self ->
  calculateDrugScreen runPhenoScore px a self
  = mkOutcome (drug_calls self a)
      (with_name (with_name (drug_stored self a stored) ("gamma:" +:+ gn))
         ("tau:" +:+ tn))
      (Err (ValueError (duplicate_message ("rho:" +:+ rn)))).
Proof using Hg Ht Hr Hc.
  intros HG HT HR. rewrite (drug_core_returns _ _ _ _ _ _ _ _ Hg Ht Hr), Hc.
  rewrite bind_add_fresh by done. rewrite bind_add_fresh.
  - rewrite add_duplicate; [by rewrite after_calls_quiet|].
    cbn. rewrite !elem_of_app. by left; left.
  - cbn. rewrite elem_of_app, list_elem_of_singleton.
    intros [?|H]; [done|]. cbn in H. discriminate H.
Qed.

End DrugReturns.

(** The calls made once gamma and tau have returned. *)
Lemma drug_calls_after_tau self a gn g tn t :
  runPhenoScore (gamma_call self a) = Ok (gn, g) ->
  runPhenoScore (tau_call self a) = Ok (tn, t) ->
  calls (calculateDrugScreen runPhenoScore px a self) = drug_calls self a.
Proof.
  intros Hg Ht.
  destruct (runPhenoScore (rho_call self a)) as [[rn r]|er] eqn:Hr;
    [|by rewrite (drug_rho_raises _ _ _ _ _ _ _ Hg Ht Hr)].
  rewrite (drug_core_returns _ _ _ _ _ _ _ _ Hg Ht Hr).
  destruct (concat_axis1 px _) as [stored|e]; [|by rewrite after_calls_quiet].
  destruct (decide ("gamma:" +:+ gn ∈ phenotype_names self)) as [HG|HG];
    [by rewrite bind_add_duplicate, after_calls_quiet|].
  rewrite bind_add_fresh by done.
  destruct (decide ("tau:" +:+ tn ∈ phenotype_names (with_name (drug_stored self a stored)
                                                       ("gamma:" +:+ gn)))) as [HT|HT];
    [by rewrite bind_add_duplicate, after_calls_quiet|].
  rewrite bind_add_fresh by done.
  match goal with |- context [_add_phenotype_results ?n ?s] =>
    destruct (decide (n ∈ phenotype_names s)) as [HR|HR] end.
  - by rewrite add_duplicate, after_calls_quiet.
  - by rewrite add_fresh, after_calls_quiet.
Qed.

(** *** [calculateFlowBasedScreen], path by path *)

Lemma flow_raises self a e :
  runPhenoScore (delta_call self a) = Err e ->
  calculateFlowBasedScreen runPhenoScore px a self
  = mkOutcome [delta_call self a] self (Err e).
Proof.
  intros Hd. unfold calculateFlowBasedScreen.
  rewrite bind_get_self, bind_call, Hd. reflexivity.
Qed.

Lemma flow_core_returns self a dn d :
  runPhenoScore (delta_call self a) = Ok (dn, d) ->
  calculateFlowBasedScreen runPhenoScore px a self
  = after_calls [delta_call self a]
      (_add_phenotype_results ("delta:" +:+ dn)
         (with_phenotypes self (flow_run_name a) (flow_stored dn d))).
Proof.
  intros Hd. unfold calculateFlowBasedScreen.
  rewrite bind_get_self, bind_call, Hd. cbn beta iota zeta.
  rewrite bind_lift, concat_single, bind_set_phenotypes. reflexivity.
Qed.

Lemma flow_registers self a dn d :
  runPhenoScore (delta_call self a) = Ok (dn, d) ->
  "delta:" +:+ dn ∉ phenotype_names self ->
  calculateFlowBasedScreen runPhenoScore px a self
  = mkOutcome [delta_call self a]
      (with_name (with_phenotypes self (flow_run_name a) (flow_stored dn d))
         ("delta:" +:+ dn))
      (Ok tt).
Proof.
  intros Hd HD. rewrite (flow_core_returns _ _ _ _ Hd).
  rewrite add_fresh by done. by rewrite after_calls_quiet.
Qed.

Lemma flow_duplicate self a dn d :
  runPhenoScore (delta_call self a) = Ok (dn, d) ->
  "delta:" +:+ dn ∈ phenotype_names self ->
  calculateFlowBasedScreen runPhenoScore px a self
  = mkOutcome [delta_call self a]
      (with_phenotypes self (flow_run_name a) (flow_stored dn d))
      (Err (ValueError (duplicate_message ("delta:" +:+ dn)))).
Proof.
  intros Hd HD. rewrite (flow_core_returns _ _ _ _ Hd).
  rewrite add_duplicate by done. by rewrite after_calls_quiet.
Qed.

(** *** The duplicate-name policy *)

(** C2. A label that is already in [phenotype_names] cannot be registered
    again: [_add_phenotype_results] raises [ValueError]; so does
    [calculateFlowBasedScreen] for its delta label; and
    [calculateDrugScreen] raises whenever one of its three labels is already
    registered: the [ValueError] that names the first such label in the
    order gamma, tau, rho once [pd.concat] has returned, the error of
    [pd.concat] when that raises.  The run name of the call plays no part. *)
Theorem duplicate_name_raises self :
  (forall name, name ∈ phenotype_names self ->
     value (_add_phenotype_results name self)
     = Err (ValueError (duplicate_message name)))
  /\ (forall a gn g tn t rn r name,
       runPhenoScore (gamma_call self a) = Ok (gn, g) ->
       runPhenoScore (tau_call self a) = Ok (tn, t) ->
       runPhenoScore (rho_call self a) = Ok (rn, r) ->
       name ∈ ["gamma:" +:+ gn; "tau:" +:+ tn; "rho:" +:+ rn] ->
       name ∈ phenotype_names self ->
       let o := calculateDrugScreen runPhenoScore px a self in
       let dict := [("gamma:" +:+ gn, g); ("tau:" +:+ tn, t); ("rho:" +:+ rn, r)] in
       is_ok (value o) = false
       /\ (forall e, concat_axis1 px dict = Err e -> value o = Err e)
       /\ (forall stored,
            concat_axis1 px dict = Ok stored ->
            exists dup,
              dup ∈ ["gamma:" +:+ gn; "tau:" +:+ tn; "rho:" +:+ rn]
              /\ dup ∈ phenotype_names self
              /\ value o = Err (ValueError (duplicate_message dup))))
  /\ (forall a dn d,
       runPhenoScore (delta_call self a) = Ok (dn, d) ->
       "delta:" +:+ dn ∈ phenotype_names self ->
       value (calculateFlowBasedScreen runPhenoScore px a self)
       = Err (ValueError (duplicate_message ("delta:" +:+ dn)))).
Proof.
  split; [|split].
  - intros name Hin. by rewrite add_duplicate.
  - intros a gn g tn t rn r name Hg Ht Hr Hname Hin. cbv zeta.
    change [("gamma:" +:+ gn, g); ("tau:" +:+ tn, t); ("rho:" +:+ rn, r)]
      with (drug_entries gn g tn t rn r).
    assert (Hdup : forall stored,
      concat_axis1 px (drug_entries gn g tn t rn r) = Ok stored ->
      exists dup,
        dup ∈ ["gamma:" +:+ gn; "tau:" +:+ tn; "rho:" +:+ rn]
        /\ dup ∈ phenotype_names self
        /\ value (calculateDrugScreen runPhenoScore px a self)
           = Err (ValueError (duplicate_message dup))).
    { intros stored Hc.
      destruct (decide ("gamma:" +:+ gn ∈ phenotype_names self)) as [HG|HG].
      { exists ("gamma:" +:+ gn). split; [by repeat constructor|]. split; [done|].
        by rewrite (drug_gamma_duplicate _ _ _ _ _ _ _ _ Hg Ht Hr _ Hc HG). }
      destruct (decide ("tau:" +:+ tn ∈ phenotype_names self)) as [HT|HT].
      { exists ("tau:" +:+ tn). split; [by repeat constructor|]. split; [done|].
        by rewrite (drug_tau_duplicate _ _ _ _ _ _ _ _ Hg Ht Hr _ Hc HG HT). }
      assert (HR : "rho:" +:+ rn ∈ phenotype_names self).
      { rewrite !elem_of_cons in Hname.
        destruct Hname as [->|[->|[->|Hnil]]]; try done. by apply elem_of_nil in Hnil. }
      exists ("rho:" +:+ rn). split; [by repeat constructor|]. split; [done|].
      by rewrite (drug_rho_duplicate _ _ _ _ _ _ _ _ Hg Ht Hr _ Hc HG HT HR). }
    split; [|split; [|exact Hdup]].
    + destruct (concat_axis1 px (drug_entries gn g tn t rn r)) as [stored|e] eqn:Hc.
      * destruct (Hdup stored eq_refl) as (dup & _ & _ & ->). done.
      * by rewrite (drug_concat_raises _ _ _ _ _ _ _ _ Hg Ht Hr _ Hc).
    + intros e Hc. by rewrite (drug_concat_raises _ _ _ _ _ _ _ _ Hg Ht Hr _ Hc).
  - intros a dn d Hd HD. by rewrite (flow_duplicate _ _ _ _ Hd HD).
Qed.

(** *** What a scoring call leaves behind *)

(** C1 (amended). A scoring call either returns, with all of its labels
    appended to [phenotype_names], or raises.  When a PhenoScore core
    computation raises, or [pd.concat] does, the object is left as it was.
    Once [pd.concat] has returned, [phenotypes[run_name]] is assigned its
    result first; a duplicate label then raises [ValueError] with that
    assignment in place and with the labels that precede the duplicate
    (order gamma, tau, rho) already appended. *)
Theorem scoring_call_outcome self :
  (forall a,
     let o := calculateDrugScreen runPhenoScore px a self in
     ((exists c e, c ∈ [gamma_call self a; tau_call self a; rho_call self a]
                   /\ runPhenoScore c = Err e) ->
      final o = self /\ is_ok (value o) = false)
     /\ (forall gn g tn t rn r,
          runPhenoScore (gamma_call self a) = Ok (gn, g) ->
          runPhenoScore (tau_call self a) = Ok (tn, t) ->
          runPhenoScore (rho_call self a) = Ok (rn, r) ->
          let labels := ["gamma:" +:+ gn; "tau:" +:+ tn; "rho:" +:+ rn] in
          let dict := [("gamma:" +:+ gn, g); ("tau:" +:+ tn, t); ("rho:" +:+ rn, r)] in
          (forall e, concat_axis1 px dict = Err e ->
             final o = self /\ value o = Err e)
          /\ (forall stored,
               concat_axis1 px dict = Ok stored ->
               phenotypes (final o) = <[drug_run_name a := stored]> (phenotypes self)
               /\ ((Forall (fun x => x ∉ phenotype_names self) labels
                    /\ value o = Ok tt
                    /\ phenotype_names (final o) = phenotype_names self ++ labels)
                   \/ (exists pre dup post,
                         labels = pre ++ dup :: post
                         /\ Forall (fun x => x ∉ phenotype_names self) pre
                         /\ dup ∈ phenotype_names self
                         /\ value o = Err (ValueError (duplicate_message dup))
                         /\ phenotype_names (final o)
                            = phenotype_names self ++ pre)))))
  /\ (forall a,
       let o := calculateFlowBasedScreen runPhenoScore px a self in
       (forall e, runPhenoScore (delta_call self a) = Err e ->
          final o = self /\ value o = Err e)
       /\ (forall dn d,
            runPhenoScore (delta_call self a) = Ok (dn, d) ->
            phenotypes (final o)
            = <[flow_run_name a := match columns d with
                                   | [] => []
                                   | _ :: _ => [("delta:" +:+ dn, d)]
                                   end]> (phenotypes self)
            /\ ((("delta:" +:+ dn ∉ phenotype_names self)
                 /\ value o = Ok tt
                 /\ phenotype_names (final o)
                    = phenotype_names self ++ ["delta:" +:+ dn])
                \/ ("delta:" +:+ dn ∈ phenotype_names self
                    /\ value o
                       = Err (ValueError (duplicate_message ("delta:" +:+ dn)))
                    /\ phenotype_names (final o) = phenotype_names self)))).
Proof.
  split.
  - intros a o. subst o. split.
    + intros (c & e & Hc & He).
      destruct (runPhenoScore (gamma_call self a)) as [[gn g]|eg] eqn:Hg;
        [|by rewrite (drug_gamma_raises _ _ _ Hg)].
      destruct (runPhenoScore (tau_call self a)) as [[tn t]|et] eqn:Ht;
        [|by rewrite (drug_tau_raises _ _ _ _ _ Hg Ht)].
      destruct (runPhenoScore (rho_call self a)) as [[rn r]|er] eqn:Hr;
        [|by rewrite (drug_rho_raises _ _ _ _ _ _ _ Hg Ht Hr)].
      rewrite !elem_of_cons in Hc.
      destruct Hc as [->|[->|[->|Hnil]]]; try congruence.
      by apply elem_of_nil in Hnil.
    + intros gn g tn t rn r Hg Ht Hr labels dict. subst labels dict.
      change [("gamma:" +:+ gn, g); ("tau:" +:+ tn, t); ("rho:" +:+ rn, r)]
        with (drug_entries gn g tn t rn r).
      split.
      { intros e Hc. by rewrite (drug_concat_raises _ _ _ _ _ _ _ _ Hg Ht Hr _ Hc). }
      intros stored Hc.
      destruct (decide ("gamma:" +:+ gn ∈ phenotype_names self)) as [HG|HG].
      { rewrite (drug_gamma_duplicate _ _ _ _ _ _ _ _ Hg Ht Hr _ Hc HG).
        split; [done|]. right.
        exists [], ("gamma:" +:+ gn), ["tau:" +:+ tn; "rho:" +:+ rn].
        cbn. rewrite app_nil_r. by repeat split. }
      destruct (decide ("tau:" +:+ tn ∈ phenotype_names self)) as [HT|HT].
      { rewrite (drug_tau_duplicate _ _ _ _ _ _ _ _ Hg Ht Hr _ Hc HG HT).
        split; [done|]. right.
        exists ["gamma:" +:+ gn], ("tau:" +:+ tn), ["rho:" +:+ rn].
        cbn. repeat split; try done. by repeat constructor. }
      destruct (decide ("rho:" +:+ rn ∈ phenotype_names self)) as [HR|HR].
      { rewrite (drug_rho_duplicate _ _ _ _ _ _ _ _ Hg Ht Hr _ Hc HG HT HR).
        split; [done|]. right.
        exists ["gamma:" +:+ gn; "tau:" +:+ tn], ("rho:" +:+ rn), [].
        cbn. rewrite <- !app_assoc. repeat split; try done. by repeat constructor. }
      rewrite (drug_registers_all _ _ _ _ _ _ _ _ Hg Ht Hr _ Hc HG HT HR).
      split; [done|]. left. cbn. rewrite <- !app_assoc.
      repeat split; try done. by repeat constructor.
  - intros a o. subst o. split.
    + intros e He. by rewrite (flow_raises _ _ _ He).
    + intros dn d Hd.
      destruct (decide ("delta:" +:+ dn ∈ phenotype_names self)) as [HD|HD].
      * rewrite (flow_duplicate _ _ _ _ Hd HD). split; [done|]. by right.
      * rewrite (flow_registers _ _ _ _ Hd HD). split; [done|]. by left.
Qed.

(** *** The core computations of a call *)

(** C6 (amended). [calculateDrugScreen] calls the PhenoScore core for gamma
    (t0 to untreated, divisor [db_untreated]), tau (t0 to treated, divisor
    [db_treated]) and rho (untreated to treated, divisor
    [|db_untreated - db_treated|]), in this order, with the object's
    [adata], [n_reps], [transformation] and [test], and for nothing else; a
    computation that raises ends the call.  So it makes the three calls
    when the gamma and the tau computation return, the gamma call alone
    when that raises, and the gamma and the tau call when tau raises. *)
Theorem drug_screen_core_calls self a :
  let gamma :=
    mkCall (adata self) (t0 a) (untreated a) (Some (db_untreated a))
      (n_reps self) (transformation self) (test self) (d_score_level a) in
  let tau :=
    mkCall (adata self) (t0 a) (treated a) (Some (db_treated a))
      (n_reps self) (transformation self) (test self) (d_score_level a) in
  let rho :=
    mkCall (adata self) (untreated a) (treated a)
      (Some (SFabs (SFsub 53 1024 (db_untreated a) (db_treated a))))
      (n_reps self) (transformation self) (test self) (d_score_level a) in
  calls (calculateDrugScreen runPhenoScore px a self)
  = match runPhenoScore gamma with
    | Err _ => [gamma]
    | Ok _ =>
        match runPhenoScore tau with
        | Err _ => [gamma; tau]
        | Ok _ => [gamma; tau; rho]
        end
    end.
Proof.
  cbv zeta.
  change (mkCall (adata self) (t0 a) (untreated a) (Some (db_untreated a))
            (n_reps self) (transformation self) (test self) (d_score_level a))
    with (gamma_call self a).
  change (mkCall (adata self) (t0 a) (treated a) (Some (db_treated a))
            (n_reps self) (transformation self) (test self) (d_score_level a))
    with (tau_call self a).
  change (mkCall (adata self) (untreated a) (treated a)
            (Some (SFabs (SFsub 53 1024 (db_untreated a) (db_treated a))))
            (n_reps self) (transformation self) (test self) (d_score_level a))
    with (rho_call self a).
  destruct (runPhenoScore (gamma_call self a)) as [[gn g]|eg] eqn:Hg;
    [|by rewrite (drug_gamma_raises _ _ _ Hg)].
  destruct (runPhenoScore (tau_call self a)) as [[tn t]|et] eqn:Ht;
    [|by rewrite (drug_tau_raises _ _ _ _ _ Hg Ht)].
  by rewrite (drug_calls_after_tau _ _ _ _ _ _ Hg Ht).
Qed.


(** *** [getPhenotypeScores], path by path *)

Lemma get_not_registered self a :
  score_name a ∉ phenotype_names self ->
  getPhenotypeScores ann_score_df px a self
  = mkOutcome [] self (Err (ValueError (not_found_message (score_name a)))).
Proof.
  intros Hn. unfold getPhenotypeScores. rewrite bind_get_self.
  rewrite bool_decide_eq_false_2 by done. reflexivity.
Qed.

Lemma get_unknown_run self a :
  score_name a ∈ phenotype_names self ->
  phenotypes self !! g_run_name a = None ->
  getPhenotypeScores ann_score_df px a self
  = mkOutcome [] self (Err (KeyError [g_run_name a])).
Proof.
  intros Hn Hrun. unfold getPhenotypeScores. rewrite bind_get_self.
  rewrite bool_decide_eq_true_2 by done. cbn beta iota zeta delta [negb].
  rewrite bind_get_phenotypes, Hrun. reflexivity.
Qed.

(** What is done with the stored result once the run has been looked up. *)
Lemma get_registered self a mf :
  score_name a ∈ phenotype_names self ->
  phenotypes self !! g_run_name a = Some mf ->
  getPhenotypeScores ann_score_df px a self
  = mkOutcome [] self
      (match getitem mf (score_name a) with
       | Err e => Err e
       | Ok tbl => annotate_table ann_score_df px a tbl
       end).
Proof.
  intros Hn Hrun. unfold getPhenotypeScores, annotate_table. rewrite bind_get_self.
  rewrite bool_decide_eq_true_2 by done. cbn beta iota zeta delta [negb].
  rewrite bind_get_phenotypes, Hrun, bind_lift.
  destruct (getitem mf (score_name a)) as [tbl|e]; [|done].
  rewrite bind_lift. destruct (loc_item tbl _) as [sel|e]; [|done].
  rewrite bind_lift. destruct (set_index px sel _) as [idx|e]; [|done].
  reflexivity.
Qed.

Lemma get_quiet self a :
  exists v, getPhenotypeScores ann_score_df px a self = mkOutcome [] self v.
Proof.
  destruct (decide (score_name a ∈ phenotype_names self)) as [Hn|Hn];
    [|rewrite get_not_registered by done; eauto].
  destruct (phenotypes self !! g_run_name a) as [mf|] eqn:Hrun.
  - rewrite (get_registered _ _ _ Hn Hrun). eauto.
  - rewrite get_unknown_run by done. eauto.
Qed.

Lemma get_final self a : final (getPhenotypeScores ann_score_df px a self) = self.
Proof. by destruct (get_quiet self a) as [v ->]. Qed.

(** The selection when the three labels are columns and none of them is
    ['target']: no column is left for [set_index('target')]. *)
Lemma annotate_without_target (a : GetArgs) (tbl : DataFrame) :
  has_column (columns tbl) (target_col a) = true ->
  has_column (columns tbl) (pvalue_column a) = true ->
  has_column (columns tbl) (score_column a) = true ->
  target_col a <> "target" ->
  pvalue_column a <> "target" ->
  score_column a <> "target" ->
  loc_columns tbl [target_col a; pvalue_column a; score_column a]
  = Ok (mkFrame (index_name tbl) (index tbl)
          (select_columns (columns tbl)
             [target_col a; pvalue_column a; score_column a]))
  /\ annotate_table ann_score_df px a tbl
     = Err (if squeezed tbl then IndexingError "Too many indexers"
            else KeyError ["target"]).
Proof.
  intros Htg Hpv Hsc Hne1 Hne2 Hne3.
  assert (Hloc : loc_columns tbl [target_col a; pvalue_column a; score_column a]
                 = Ok (mkFrame (index_name tbl) (index tbl)
                         (select_columns (columns tbl)
                            [target_col a; pvalue_column a; score_column a]))).
  { apply loc_columns_found. intros n.
    rewrite !elem_of_cons.
    intros [->|[->|[->|Hnil]]]; try done. by apply elem_of_nil in Hnil. }
  split; [exact Hloc|].
  unfold annotate_table, loc_item. destruct (squeezed tbl); [done|].
  rewrite Hloc. unfold set_index. cbn [columns].
  rewrite select_other; [done|].
  rewrite !not_elem_of_cons. repeat split; try congruence. apply not_elem_of_nil.
Qed.

(** The selection when the three labels are ['target'] and two others, each
    naming one column of the table. *)
Lemma annotate_three_columns (a : GetArgs) (tbl : DataFrame) (tg pv sc : list cell) :
  target_col a = "target" ->
  pvalue_column a <> "target" ->
  score_column a <> "target" ->
  score_column a <> pvalue_column a ->
  columns_labelled (columns tbl) "target" = [("target", tg)] ->
  columns_labelled (columns tbl) (pvalue_column a) = [(pvalue_column a, pv)] ->
  columns_labelled (columns tbl) (score_column a) = [(score_column a, sc)] ->
  annotate_table ann_score_df px a tbl
  = ann_score_df (mkFrame (Some "target") tg [("pvalue", pv); (score_column a, sc)])
      (ctrl_label a) (threshold a).
Proof.
  intros Htc Hne1 Hne2 Hne3 Htg Hpv Hsc.
  assert (Hsq : squeezed tbl = false).
  { unfold squeezed. destruct (columns tbl) as [|[n v] [|c cs]]; try done.
    case_bool_decide as Hn; [|done]. subst n.
    unfold columns_labelled in Htg. cbn in Htg. discriminate Htg. }
  unfold annotate_table, loc_item. rewrite Hsq, Htc.
  rewrite loc_columns_found.
  2:{ intros n. rewrite !elem_of_cons.
      intros [->|[->|[->|Hnil]]]; [| | |by apply elem_of_nil in Hnil];
        (destruct (has_column (columns tbl) _) eqn:Hhas; [done|]);
        apply no_column_labelled in Hhas; congruence. }
  unfold select_columns. cbn [flat_map]. rewrite Htg, Hpv, Hsc.
  unfold set_index, rename_columns, columns_labelled. cbn.
  repeat first [ rewrite bool_decide_eq_false_2 by done
               | rewrite bool_decide_eq_true_2 by done
               | progress cbn ].
  reflexivity.
Qed.

(** *** Retrieval *)

(** C9. [getPhenotypeScores] leaves the object as it found it, whether it
    returns a table or raises: [phenotypes] and [phenotype_names] are the
    same before and after, and the PhenoScore core is not called. *)
Theorem get_scores_keeps_registry self a :
  let o := getPhenotypeScores ann_score_df px a self in
  phenotypes (final o) = phenotypes self
  /\ phenotype_names (final o) = phenotype_names self
  /\ final o = self
  /\ calls o = [].
Proof. cbv zeta. by destruct (get_quiet self a) as [v ->]. Qed.

(** C10. The not-found check of [getPhenotypeScores] looks at
    [phenotype_names] only.  A label registered by some run, asked for under
    a run name whose stored result has no such label, passes the check and
    raises the [KeyError] of the lookup in the stored result; under a run
    name that was never stored it raises the [KeyError] of the dictionary. *)
Theorem get_scores_wrong_run self a :
  score_name a ∈ phenotype_names self ->
  (forall mf,
     phenotypes self !! g_run_name a = Some mf ->
     score_name a ∉ mf.*1 ->
     value (getPhenotypeScores ann_score_df px a self) = Err (KeyError [score_name a]))
  /\ (phenotypes self !! g_run_name a = None ->
      value (getPhenotypeScores ann_score_df px a self) = Err (KeyError [g_run_name a])).
Proof.
  intros Hn. split.
  - intros mf Hrun Hnot. rewrite (get_registered _ _ _ Hn Hrun).
    by rewrite getitem_missing.
  - intros Hrun. by rewrite get_unknown_run.
Qed.

(** C4. With a [target_col] other than ['target'], and no other selected
    column called ['target'], [getPhenotypeScores] never returns: [.loc]
    selects every column that carries one of the three labels asked for, and
    [set_index('target')] then raises [KeyError], for the selected target
    column is neither renamed nor made the index.  (When the stored table is
    one column labelled with the empty string, asked for under that label,
    [frame[score_name]] is a Series and it is [.loc] that raises.) *)
Theorem get_scores_target_override_raises self a mf tbl tg pv sc :
  score_name a ∈ phenotype_names self ->
  phenotypes self !! g_run_name a = Some mf ->
  getitem mf (score_name a) = Ok tbl ->
  get_column (columns tbl) (target_col a) = Some tg ->
  get_column (columns tbl) (pvalue_column a) = Some pv ->
  get_column (columns tbl) (score_column a) = Some sc ->
  target_col a <> "target" ->
  pvalue_column a <> "target" ->
  score_column a <> "target" ->
  loc_columns tbl [target_col a; pvalue_column a; score_column a]
  = Ok (mkFrame (index_name tbl) (index tbl)
          (columns_labelled (columns tbl) (target_col a)
           ++ columns_labelled (columns tbl) (pvalue_column a)
           ++ columns_labelled (columns tbl) (score_column a)))
  /\ value (getPhenotypeScores ann_score_df px a self)
     = Err (if squeezed tbl then IndexingError "Too many indexers"
            else KeyError ["target"]).
Proof.
  intros Hn Hrun Htbl Htg Hpv Hsc Hne1 Hne2 Hne3.
  rewrite (get_registered _ _ _ Hn Hrun), Htbl.
  destruct (annotate_without_target a tbl) as [Hloc Hval]; try done.
  1-3: unfold has_column; by rewrite ?Htg, ?Hpv, ?Hsc.
  split; [|exact Hval].
  rewrite Hloc. unfold select_columns. cbn [flat_map]. by rewrite app_nil_r.
Qed.

(** C5 (amended). [getPhenotypeScores] raises [ValueError] (not found) for a
    label that is not in [phenotype_names].  For a registered label that the
    result stored under [run_name] contains, with [target_col] left at
    ['target'], [pvalue_column] and [score_column] two different labels
    other than ['target'], and each of the three labels naming exactly one
    column of the stored table, it returns what [ann_score_df] makes of the
    table indexed by target whose columns are exactly [pvalue] and the score
    column.  For a registered label that the result stored under [run_name]
    does not contain, it raises [KeyError]. *)
Theorem get_scores_lookup self a :
  (score_name a ∉ phenotype_names self ->
   value (getPhenotypeScores ann_score_df px a self)
   = Err (ValueError (not_found_message (score_name a))))
  /\ (forall mf tbl tg pv sc,
       score_name a ∈ phenotype_names self ->
       phenotypes self !! g_run_name a = Some mf ->
       getitem mf (score_name a) = Ok tbl ->
       target_col a = "target" ->
       pvalue_column a <> "target" ->
       score_column a <> "target" ->
       score_column a <> pvalue_column a ->
       columns_labelled (columns tbl) "target" = [("target", tg)] ->
       columns_labelled (columns tbl) (pvalue_column a) = [(pvalue_column a, pv)] ->
       columns_labelled (columns tbl) (score_column a) = [(score_column a, sc)] ->
       value (getPhenotypeScores ann_score_df px a self)
       = ann_score_df
           (mkFrame (Some "target") tg [("pvalue", pv); (score_column a, sc)])
           (ctrl_label a) (threshold a))
  /\ (forall mf,
       score_name a ∈ phenotype_names self ->
       phenotypes self !! g_run_name a = Some mf ->
       score_name a ∉ mf.*1 ->
       value (getPhenotypeScores ann_score_df px a self)
       = Err (KeyError [score_name a])).
Proof.
  split; [|split].
  - intros Hn. by rewrite get_not_registered.
  - intros mf tbl tg pv sc Hn Hrun Htbl Htc Hne1 Hne2 Hne3 Htg Hpv Hsc.
    rewrite (get_registered _ _ _ Hn Hrun), Htbl. cbn [value].
    by apply annotate_three_columns.
  - intros mf Hn Hrun Hnot. rewrite (get_registered _ _ _ Hn Hrun).
    by rewrite getitem_missing.
Qed.

(** *** The rho divisor *)

(** C7 (amended). For equal doubling rates that are finite
    ([db_untreated == db_treated], neither of them infinite),
    [calculateDrugScreen] passes a rho growth-rate divisor of exactly (plus)
    zero to the PhenoScore core: no sentinel, no error, no minimum divisor. *)
Theorem equal_finite_rates_zero_divisor self a :
  PyFloat.is_finite (db_untreated a) = true ->
  PyFloat.eqb (db_untreated a) (db_treated a) = true ->
  c_growth_rate (rho_call self a) = Some (S754_zero false)
  /\ (forall c,
       calls (calculateDrugScreen runPhenoScore px a self) !! 2%nat = Some c ->
       c = rho_call self a /\ c_growth_rate c = Some (S754_zero false)).
Proof.
  intros Hfin Heq.
  assert (Hz : c_growth_rate (rho_call self a) = Some (S754_zero false)).
  { cbn. by rewrite rho_growth_rate_equal_finite. }
  split; [done|]. intros c.
  destruct (runPhenoScore (gamma_call self a)) as [[gn g]|eg] eqn:Hg;
    [|by rewrite (drug_gamma_raises _ _ _ Hg)].
  destruct (runPhenoScore (tau_call self a)) as [[tn t]|et] eqn:Ht;
    [|by rewrite (drug_tau_raises _ _ _ _ _ Hg Ht)].
  rewrite (drug_calls_after_tau _ _ _ _ _ _ Hg Ht). cbn.
  by intros [= <-].
Qed.

(** *** The registry over a sequence of calls *)

(** One scoring call, returning or raising, assigns at most the key of its
    run name and only appends labels. *)
Lemma run_call_shape self c :
  let o := run_call runPhenoScore px c self in
  (phenotypes (final o) = phenotypes self
   \/ exists v, phenotypes (final o) = <[call_run_name c := v]> (phenotypes self))
  /\ exists extra, phenotype_names (final o) = phenotype_names self ++ extra.
Proof.
  destruct c as [a|a]; cbv zeta; cbn [run_call call_run_name].
  - destruct (runPhenoScore (gamma_call self a)) as [[gn g]|eg] eqn:Hg.
    2:{ rewrite (drug_gamma_raises _ _ _ Hg). cbn.
        split; [by left|]. exists []. by rewrite app_nil_r. }
    destruct (runPhenoScore (tau_call self a)) as [[tn t]|et] eqn:Ht.
    2:{ rewrite (drug_tau_raises _ _ _ _ _ Hg Ht). cbn.
        split; [by left|]. exists []. by rewrite app_nil_r. }
    destruct (runPhenoScore (rho_call self a)) as [[rn r]|er] eqn:Hr.
    2:{ rewrite (drug_rho_raises _ _ _ _ _ _ _ Hg Ht Hr). cbn.
        split; [by left|]. exists []. by rewrite app_nil_r. }
    destruct (concat_axis1 px (drug_entries gn g tn t rn r)) as [stored|e] eqn:Hc.
    2:{ rewrite (drug_concat_raises _ _ _ _ _ _ _ _ Hg Ht Hr _ Hc). cbn.
        split; [by left|]. exists []. by rewrite app_nil_r. }
    destruct (decide ("gamma:" +:+ gn ∈ phenotype_names self)) as [HG|HG].
    { rewrite (drug_gamma_duplicate _ _ _ _ _ _ _ _ Hg Ht Hr _ Hc HG). cbn.
      split; [right; eauto|]. exists []. by rewrite app_nil_r. }
    destruct (decide ("tau:" +:+ tn ∈ phenotype_names self)) as [HT|HT].
    { rewrite (drug_tau_duplicate _ _ _ _ _ _ _ _ Hg Ht Hr _ Hc HG HT). cbn.
      split; [right; eauto|]. eauto. }
    destruct (decide ("rho:" +:+ rn ∈ phenotype_names self)) as [HR|HR].
    { rewrite (drug_rho_duplicate _ _ _ _ _ _ _ _ Hg Ht Hr _ Hc HG HT HR). cbn.
      split; [right; eauto|]. rewrite <- app_assoc. eauto. }
    rewrite (drug_registers_all _ _ _ _ _ _ _ _ Hg Ht Hr _ Hc HG HT HR). cbn.
    split; [right; eauto|]. rewrite <- !app_assoc. eauto.
  - destruct (runPhenoScore (delta_call self a)) as [[dn d]|e] eqn:Hd.
    2:{ rewrite (flow_raises _ _ _ Hd). cbn.
        split; [by left|]. exists []. by rewrite app_nil_r. }
    destruct (decide ("delta:" +:+ dn ∈ phenotype_names self)) as [HD|HD].
    + rewrite (flow_duplicate _ _ _ _ Hd HD). cbn.
      split; [right; eauto|]. exists []. by rewrite app_nil_r.
    + rewrite (flow_registers _ _ _ _ Hd HD). cbn.
      split; [right; eauto|]. eauto.
Qed.

(** A scoring call that returns has assigned the key of its run name. *)
Lemma run_call_stores self c :
  value (run_call runPhenoScore px c self) = Ok tt ->
  exists v,
    phenotypes (final (run_call runPhenoScore px c self))
    = <[call_run_name c := v]> (phenotypes self).
Proof.
  destruct c as [a|a]; cbn [run_call call_run_name].
  - destruct (runPhenoScore (gamma_call self a)) as [[gn g]|eg] eqn:Hg;
      [|by rewrite (drug_gamma_raises _ _ _ Hg)].
    destruct (runPhenoScore (tau_call self a)) as [[tn t]|et] eqn:Ht;
      [|by rewrite (drug_tau_raises _ _ _ _ _ Hg Ht)].
    destruct (runPhenoScore (rho_call self a)) as [[rn r]|er] eqn:Hr;
      [|by rewrite (drug_rho_raises _ _ _ _ _ _ _ Hg Ht Hr)].
    destruct (concat_axis1 px (drug_entries gn g tn t rn r)) as [stored|e] eqn:Hc;
      [|by rewrite (drug_concat_raises _ _ _ _ _ _ _ _ Hg Ht Hr _ Hc)].
    destruct (decide ("gamma:" +:+ gn ∈ phenotype_names self)) as [HG|HG];
      [by rewrite (drug_gamma_duplicate _ _ _ _ _ _ _ _ Hg Ht Hr _ Hc HG)|].
    destruct (decide ("tau:" +:+ tn ∈ phenotype_names self)) as [HT|HT];
      [by rewrite (drug_tau_duplicate _ _ _ _ _ _ _ _ Hg Ht Hr _ Hc HG HT)|].
    destruct (decide ("rho:" +:+ rn ∈ phenotype_names self)) as [HR|HR];
      [by rewrite (drug_rho_duplicate _ _ _ _ _ _ _ _ Hg Ht Hr _ Hc HG HT HR)|].
    rewrite (drug_registers_all _ _ _ _ _ _ _ _ Hg Ht Hr _ Hc HG HT HR). cbn. eauto.
  - destruct (runPhenoScore (delta_call self a)) as [[dn d]|e] eqn:Hd;
      [|by rewrite (flow_raises _ _ _ Hd)].
    destruct (decide ("delta:" +:+ dn ∈ phenotype_names self)) as [HD|HD];
      [by rewrite (flow_duplicate _ _ _ _ Hd HD)|].
    rewrite (flow_registers _ _ _ _ Hd HD). cbn. eauto.
Qed.

(** C3 (amended). The registry is empty after construction, and
    [getPhenotypeScores] does not touch it.  Over every sequence of
    successful scoring calls, the labels registered before are still there,
    in place ([phenotype_names] only grows at its end); every run name
    stored before is still a key of [phenotypes]; and the entry of every run
    name that none of the calls uses is unchanged.  The entry under the run
    name of a call is assigned anew by that call. *)
Theorem registry_grows :
  (forall a tr te n,
     phenotypes (init (AnnData:=AnnData) a tr te n) = ∅
     /\ phenotype_names (init a tr te n) = [])
  /\ (forall self a, final (getPhenotypeScores ann_score_df px a self) = self)
  /\ (forall self c,
       value (run_call runPhenoScore px c self) = Ok tt ->
       exists v,
         phenotypes (final (run_call runPhenoScore px c self))
         = <[call_run_name c := v]> (phenotypes self))
  /\ (forall cs self self',
       run_successful runPhenoScore px cs self = Some self' ->
       phenotype_names self `prefix_of` phenotype_names self'
       /\ (forall run, is_Some (phenotypes self !! run) ->
                      is_Some (phenotypes self' !! run))
       /\ (forall run, run ∉ map call_run_name cs ->
                      phenotypes self' !! run = phenotypes self !! run)).
Proof.
  split; [done|]. split; [apply get_final|]. split; [apply run_call_stores|].
  induction cs as [|c cs IH]; intros self self'; cbn.
  - intros [= <-]. done.
  - destruct (value (run_call runPhenoScore px c self)); [|done].
    intros Hrest. destruct (IH _ _ Hrest) as (Hpre & Hkeys & Hother).
    destruct (run_call_shape self c) as [Hph [extra Hnames]]. cbn in Hph, Hnames.
    split; [|split].
    + etrans; [|exact Hpre]. rewrite Hnames. by apply prefix_app_r.
    + intros run Hsome. apply Hkeys.
      destruct Hph as [->|[v ->]]; [done|].
      rewrite lookup_insert. case_decide; [by eexists|done].
    + intros run Hnot. apply not_elem_of_cons in Hnot as [Hne Hnot].
      rewrite (Hother _ Hnot).
      destruct Hph as [->|[v ->]]; [done|].
      by rewrite lookup_insert_ne.
Qed.

End Properties.

(** * The properties on a small screen

    The examples run the class against the stand-ins of [Demo]: six
    conditions, three elements, and a core that names a score
    [<cond1>_vs_<cond2>]. *)

(** [calculateDrugScreen('T0', 'vehicle', 'treated', 1.0, 2.0, 'sgRNA',
    run_name='second')] after a first drug screen with the same baseline and
    treated arm: the tau label is a duplicate, the call raises, and yet the
    gamma label has been appended and [phenotypes['second']] assigned. *)
Lemma drug_screen_not_atomic :
  let o := calculateDrugScreen Demo.runPhenoScore Demo.px Demo.drug2 Demo.screen1 in
  value o
  = Err (ValueError
           "Phenotype 'tau:T0_vs_treated' already exists in self.phenotype_names!")
  /\ phenotype_names Demo.screen1
     = ["gamma:T0_vs_untreated"; "tau:T0_vs_treated"; "rho:untreated_vs_treated"]
  /\ phenotype_names (final o)
     = ["gamma:T0_vs_untreated"; "tau:T0_vs_treated"; "rho:untreated_vs_treated";
        "gamma:T0_vs_vehicle"]
  /\ phenotypes Demo.screen1 !! "second" = None
  /\ is_Some (phenotypes (final o) !! "second")
  /\ phenotype_names (final o) <> phenotype_names Demo.screen1
  /\ phenotypes (final o) <> phenotypes Demo.screen1.
Proof.
  cbv zeta.
  assert (Hnone : phenotypes Demo.screen1 !! "second" = None) by by_evaluation.
  assert (Hsome : is_Some (phenotypes (final (calculateDrugScreen
             Demo.runPhenoScore Demo.px Demo.drug2 Demo.screen1)) !! "second")).
  { eexists. by_evaluation. }
  split; [by_evaluation|]. split; [by_evaluation|]. split; [by_evaluation|].
  split; [exact Hnone|]. split; [exact Hsome|]. split.
  - vm_compute. discriminate.
  - intros Heq. rewrite Heq, Hnone in Hsome. by destruct Hsome.
Qed.

Lemma scoring_call_outcome_witness :
  let o := calculateDrugScreen Demo.runPhenoScore Demo.px Demo.drug2 Demo.screen1 in
  let labels := ["gamma:T0_vs_vehicle"; "tau:T0_vs_treated"; "rho:vehicle_vs_treated"] in
  let stored := [("gamma:T0_vs_vehicle", Demo.score_table);
                 ("tau:T0_vs_treated", Demo.score_table);
                 ("rho:vehicle_vs_treated", Demo.score_table)] in
  Demo.runPhenoScore (gamma_call Demo.screen1 Demo.drug2)
  = Ok ("T0_vs_vehicle", Demo.score_table)
  /\ Demo.runPhenoScore (tau_call Demo.screen1 Demo.drug2)
     = Ok ("T0_vs_treated", Demo.score_table)
  /\ Demo.runPhenoScore (rho_call Demo.screen1 Demo.drug2)
     = Ok ("vehicle_vs_treated", Demo.score_table)
  /\ concat_axis1 Demo.px stored = Ok stored
  /\ phenotypes (final o) = <["second" := stored]> (phenotypes Demo.screen1)
  /\ ((Forall (fun x => x ∉ phenotype_names Demo.screen1) labels
       /\ value o = Ok tt
       /\ phenotype_names (final o) = phenotype_names Demo.screen1 ++ labels)
      \/ (exists pre dup post,
            labels = pre ++ dup :: post
            /\ Forall (fun x => x ∉ phenotype_names Demo.screen1) pre
            /\ dup ∈ phenotype_names Demo.screen1
            /\ value o = Err (ValueError (duplicate_message dup))
            /\ phenotype_names (final o) = phenotype_names Demo.screen1 ++ pre)).
Proof.
  cbv zeta.
  destruct (scoring_call_outcome Demo.runPhenoScore Demo.px Demo.screen1) as [Hdrug _].
  destruct (Hdrug Demo.drug2) as [_ Hreturns].
  split; [by_evaluation|]. split; [by_evaluation|]. split; [by_evaluation|].
  split; [by_evaluation|].
  refine (proj2 (Hreturns "T0_vs_vehicle" Demo.score_table "T0_vs_treated"
                   Demo.score_table "vehicle_vs_treated" Demo.score_table _ _ _) _ _);
    by_evaluation.
Defined.

(** Tables that do not share their row labels, one of them with a repeated
    label: [pd.concat] raises, nothing is stored and no label registered. *)
Example ragged_tables_store_nothing :
  let o := calculateDrugScreen Demo.runPhenoScore_ragged Demo.px Demo.drug1 Demo.screen0 in
  value o
  = Err (InvalidIndexError "Reindexing only valid with uniquely valued Index objects")
  /\ final o = Demo.screen0
  /\ length (calls o) = 3%nat.
Proof. cbv zeta. split; [by_evaluation|]. split; by_evaluation. Qed.

Lemma duplicate_name_raises_witness :
  Demo.runPhenoScore (gamma_call Demo.screen1 Demo.drug2)
  = Ok ("T0_vs_vehicle", Demo.score_table)
  /\ Demo.runPhenoScore (tau_call Demo.screen1 Demo.drug2)
     = Ok ("T0_vs_treated", Demo.score_table)
  /\ Demo.runPhenoScore (rho_call Demo.screen1 Demo.drug2)
     = Ok ("vehicle_vs_treated", Demo.score_table)
  /\ "tau:T0_vs_treated"
     ∈ ["gamma:T0_vs_vehicle"; "tau:T0_vs_treated"; "rho:vehicle_vs_treated"]
  /\ "tau:T0_vs_treated" ∈ phenotype_names Demo.screen1
  /\ is_ok (value (calculateDrugScreen Demo.runPhenoScore Demo.px Demo.drug2
                     Demo.screen1)) = false
  /\ exists dup,
       dup ∈ ["gamma:T0_vs_vehicle"; "tau:T0_vs_treated"; "rho:vehicle_vs_treated"]
       /\ dup ∈ phenotype_names Demo.screen1
       /\ value (calculateDrugScreen Demo.runPhenoScore Demo.px Demo.drug2 Demo.screen1)
          = Err (ValueError (duplicate_message dup)).
Proof.
  destruct (duplicate_name_raises Demo.runPhenoScore Demo.px Demo.screen1)
    as (_ & Hdrug & _).
  split; [by_evaluation|]. split; [by_evaluation|]. split; [by_evaluation|].
  split; [decided|]. split; [decided|].
  destruct (Hdrug Demo.drug2 "T0_vs_vehicle" Demo.score_table "T0_vs_treated"
              Demo.score_table "vehicle_vs_treated" Demo.score_table "tau:T0_vs_treated")
    as (Hraises & _ & Hdup); try by_evaluation; try decided.
  split; [exact Hraises|].
  apply (Hdup [("gamma:T0_vs_vehicle", Demo.score_table);
               ("tau:T0_vs_treated", Demo.score_table);
               ("rho:vehicle_vs_treated", Demo.score_table)]).
  by_evaluation.
Defined.

(** A drug screen whose baseline condition is not among the samples: the
    gamma computation raises and ends the call; it is the one core
    computation made, tau and rho are never asked for. *)
Lemma gamma_failure_single_core_call :
  let o := calculateDrugScreen Demo.runPhenoScore Demo.px Demo.drug_missing Demo.screen0 in
  calls o = [gamma_call Demo.screen0 Demo.drug_missing]
  /\ length (calls o) <> 3%nat
  /\ value o = Err (CoreError "MissingConditionError")
  /\ final o = Demo.screen0.
Proof.
  cbv zeta. split; [by_evaluation|]. split; [vm_compute; discriminate|].
  split; by_evaluation.
Qed.

(** [calculateDrugScreen('T0', 'untreated', 'treated', 1.0, 2.0, 'sgRNA')]:
    three calls, the last with the divisor [|1.0 - 2.0| = 1.0]. *)
Lemma drug_screen_core_calls_witness :
  calls (calculateDrugScreen Demo.runPhenoScore Demo.px Demo.drug1 Demo.screen0)
  = [mkCall Demo.samples "T0" "untreated"
       (Some (S754_finite false 4503599627370496 (-52))) 3 "log2(x+1)" "ttest" "sgRNA";
     mkCall Demo.samples "T0" "treated"
       (Some (S754_finite false 4503599627370496 (-51))) 3 "log2(x+1)" "ttest" "sgRNA";
     mkCall Demo.samples "untreated" "treated"
       (Some (S754_finite false 4503599627370496 (-52))) 3 "log2(x+1)" "ttest" "sgRNA"].
Proof.
  rewrite (drug_screen_core_calls Demo.runPhenoScore Demo.px Demo.screen0 Demo.drug1).
  by_evaluation.
Defined.

(** A flow screen at the score level of an earlier drug screen, with no run
    name: both calls return, and the entry the drug screen stored under
    ['sgRNA'] has been replaced. *)
Lemma stored_run_replaced :
  run_successful Demo.runPhenoScore Demo.px [Drug Demo.drug1] Demo.screen0
  = Some Demo.screen1
  /\ value (calculateFlowBasedScreen Demo.runPhenoScore Demo.px Demo.flow1 Demo.screen1)
     = Ok tt
  /\ exists mf,
       phenotypes Demo.screen1 !! "sgRNA" = Some mf
       /\ phenotypes
            (final (calculateFlowBasedScreen Demo.runPhenoScore Demo.px Demo.flow1
                      Demo.screen1))
          !! "sgRNA" <> Some mf.
Proof.
  split; [by_evaluation|]. split; [by_evaluation|].
  eexists. split; [by_evaluation|]. vm_compute. discriminate.
Qed.

Lemma registry_grows_witness :
  run_successful Demo.runPhenoScore Demo.px [Flow Demo.flow2] Demo.screen1
  = Some Demo.screen2
  /\ phenotype_names Demo.screen1 `prefix_of` phenotype_names Demo.screen2
  /\ (forall run, is_Some (phenotypes Demo.screen1 !! run) ->
                  is_Some (phenotypes Demo.screen2 !! run))
  /\ (forall run, run ∉ map call_run_name [Flow Demo.flow2] ->
                  phenotypes Demo.screen2 !! run = phenotypes Demo.screen1 !! run).
Proof.
  assert (Hrun : run_successful Demo.runPhenoScore Demo.px [Flow Demo.flow2] Demo.screen1
                 = Some Demo.screen2) by by_evaluation.
  split; [exact Hrun|].
  destruct (registry_grows Demo.runPhenoScore Demo.ann_score_df Demo.px)
    as (_ & _ & _ & Hseq).
  exact (Hseq _ _ _ Hrun).
Defined.

Lemma get_scores_target_override_raises_witness :
  "rho:untreated_vs_treated" ∈ phenotype_names Demo.screen1
  /\ phenotypes Demo.screen1 !! "sgRNA"
     = Some [("gamma:T0_vs_untreated", Demo.score_table);
             ("tau:T0_vs_treated", Demo.score_table);
             ("rho:untreated_vs_treated", Demo.score_table)]
  /\ get_column (columns Demo.score_table) "gene"
     = Some [CStr "ENSG01"; CStr "ENSG02"; CStr "negCtrl"]
  /\ loc_columns Demo.score_table ["gene"; "ttest pvalue"; "score"]
     = Ok (mkFrame None [CStr "sg1"; CStr "sg2"; CStr "sg3"]
             [("gene", [CStr "ENSG01"; CStr "ENSG02"; CStr "negCtrl"]);
              ("ttest pvalue", [CNum PyFloat.one; CNum PyFloat.one; CNum PyFloat.one]);
              ("score", [CNum PyFloat.two; CNum PyFloat.one; CNum PyFloat.pos_zero])])
  /\ value (getPhenotypeScores Demo.ann_score_df Demo.px Demo.get_rho_by_gene
              Demo.screen1)
     = Err (KeyError ["target"]).
Proof.
  split; [decided|]. split; [by_evaluation|]. split; [by_evaluation|].
  refine (get_scores_target_override_raises Demo.ann_score_df Demo.px
            Demo.screen1 Demo.get_rho_by_gene
            [("gamma:T0_vs_untreated", Demo.score_table);
             ("tau:T0_vs_treated", Demo.score_table);
             ("rho:untreated_vs_treated", Demo.score_table)]
            Demo.score_table
            [CStr "ENSG01"; CStr "ENSG02"; CStr "negCtrl"]
            [CNum PyFloat.one; CNum PyFloat.one; CNum PyFloat.one]
            [CNum PyFloat.two; CNum PyFloat.one; CNum PyFloat.pos_zero]
            _ _ _ _ _ _ _ _ _);
    first [by_evaluation | decided | (vm_compute; discriminate)].
Defined.

(** A label registered by the drug screen, asked for under the run name of
    the flow screen: no table, but the [KeyError] of the lookup. *)
Lemma registered_label_not_returned :
  "rho:untreated_vs_treated" ∈ phenotype_names Demo.screen2
  /\ value (getPhenotypeScores Demo.ann_score_df Demo.px Demo.get_rho_in_sorted
              Demo.screen2)
     = Err (KeyError ["rho:untreated_vs_treated"]).
Proof. split; [decided|by_evaluation]. Qed.

Lemma get_scores_lookup_witness :
  "rho:untreated_vs_treated" ∈ phenotype_names Demo.screen1
  /\ phenotypes Demo.screen1 !! "sgRNA"
     = Some [("gamma:T0_vs_untreated", Demo.score_table);
             ("tau:T0_vs_treated", Demo.score_table);
             ("rho:untreated_vs_treated", Demo.score_table)]
  /\ value (getPhenotypeScores Demo.ann_score_df Demo.px Demo.get_rho Demo.screen1)
     = Demo.ann_score_df
         (mkFrame (Some "target") [CStr "GeneA"; CStr "GeneB"; CStr "negCtrl"]
            [("pvalue", [CNum PyFloat.one; CNum PyFloat.one; CNum PyFloat.one]);
             ("score", [CNum PyFloat.two; CNum PyFloat.one; CNum PyFloat.pos_zero])])
         "negCtrl" (PyInt 5).
Proof.
  split; [decided|]. split; [by_evaluation|].
  refine (proj1 (proj2 (get_scores_lookup Demo.ann_score_df Demo.px Demo.screen1
                          Demo.get_rho))
            [("gamma:T0_vs_untreated", Demo.score_table);
             ("tau:T0_vs_treated", Demo.score_table);
             ("rho:untreated_vs_treated", Demo.score_table)]
            Demo.score_table
            [CStr "GeneA"; CStr "GeneB"; CStr "negCtrl"]
            [CNum PyFloat.one; CNum PyFloat.one; CNum PyFloat.one]
            [CNum PyFloat.two; CNum PyFloat.one; CNum PyFloat.pos_zero]
            _ _ _ _ _ _ _ _ _ _);
    first [by_evaluation | decided | (vm_compute; discriminate)].
Defined.

Lemma get_scores_wrong_run_witness :
  "rho:untreated_vs_treated" ∈ phenotype_names Demo.screen2
  /\ phenotypes Demo.screen2 !! "sorted" = Some [("delta:low_vs_high", Demo.score_table)]
  /\ ("rho:untreated_vs_treated" ∉ [("delta:low_vs_high", Demo.score_table)].*1)
  /\ value (getPhenotypeScores Demo.ann_score_df Demo.px Demo.get_rho_in_sorted
              Demo.screen2)
     = Err (KeyError ["rho:untreated_vs_treated"]).
Proof.
  assert (Hn : score_name Demo.get_rho_in_sorted ∈ phenotype_names Demo.screen2)
    by decided.
  assert (Hrun : phenotypes Demo.screen2 !! g_run_name Demo.get_rho_in_sorted
                 = Some [("delta:low_vs_high", Demo.score_table)]) by by_evaluation.
  assert (Hnot : score_name Demo.get_rho_in_sorted
                 ∉ [("delta:low_vs_high", Demo.score_table)].*1) by decided.
  split; [exact Hn|]. split; [exact Hrun|]. split; [exact Hnot|].
  exact (proj1 (get_scores_wrong_run Demo.ann_score_df Demo.px Demo.screen2
                  Demo.get_rho_in_sorted Hn) _ Hrun Hnot).
Defined.

(** [calculateDrugScreen(..., db_untreated=inf, db_treated=inf)]: the rates
    are equal, and the divisor passed for rho is NaN, not zero. *)
Lemma equal_infinite_rates_nan_divisor :
  PyFloat.eqb (db_untreated Demo.drug_inf) (db_treated Demo.drug_inf) = true
  /\ c_growth_rate
       <$> calls (calculateDrugScreen Demo.runPhenoScore Demo.px Demo.drug_inf
                    Demo.screen0)
           !! 2%nat
     = Some (Some S754_nan)
  /\ Some S754_nan <> Some (S754_zero false).
Proof. split; [by_evaluation|]. split; [by_evaluation|discriminate]. Qed.

Lemma equal_finite_rates_zero_divisor_witness :
  PyFloat.is_finite (db_untreated Demo.drug_equal) = true
  /\ PyFloat.eqb (db_untreated Demo.drug_equal) (db_treated Demo.drug_equal) = true
  /\ calls (calculateDrugScreen Demo.runPhenoScore Demo.px Demo.drug_equal Demo.screen0)
     !! 2%nat
     = Some (rho_call Demo.screen0 Demo.drug_equal)
  /\ c_growth_rate (rho_call Demo.screen0 Demo.drug_equal) = Some (S754_zero false).
Proof.
  assert (Hfin : PyFloat.is_finite (db_untreated Demo.drug_equal) = true)
    by by_evaluation.
  assert (Heq : PyFloat.eqb (db_untreated Demo.drug_equal) (db_treated Demo.drug_equal)
                = true) by by_evaluation.
  split; [exact Hfin|]. split; [exact Heq|]. split; [by_evaluation|].
  exact (proj1 (equal_finite_rates_zero_divisor Demo.runPhenoScore Demo.px Demo.screen0
                  Demo.drug_equal Hfin Heq)).
Defined.


(** * Further properties of the class *)

(** The sub-frames of three frames put side by side under three different
    keys; a frame without columns has none. *)
Lemma getitem_keyed_three (kg kt kr : string) (g t r : DataFrame) :
  kg <> kt -> kg <> kr -> kt <> kr ->
  getitem (keyed [kg; kt; kr] [g; t; r]) kg
  = match columns g with [] => Err (KeyError [kg]) | _ :: _ => Ok g end
  /\ getitem (keyed [kg; kt; kr] [g; t; r]) kt
     = match columns t with [] => Err (KeyError [kt]) | _ :: _ => Ok t end
  /\ getitem (keyed [kg; kt; kr] [g; t; r]) kr
     = match columns r with [] => Err (KeyError [kr]) | _ :: _ => Ok r end.
Proof.
  intros Hgt Hgr Htr.
  destruct g as [gn gi [|gc gcs]], t as [tn ti [|tc tcs]], r as [rn ri [|rc rcs]];
    cbn; repeat case_bool_decide; try done; congruence.
Qed.

Section Sessions.
Context {AnnData : Type}.
Variable runPhenoScore : PhenoCall AnnData -> result (string * DataFrame).
Variable ann_score_df : DataFrame -> string -> pynum -> result DataFrame.
Variable px : Pandas.Rest.
Implicit Types (self : PooledScreens AnnData) (e : exn) (c : scoring_call).
Implicit Types (gn tn rn dn : string) (g t r d : DataFrame).

(** *** The shape of what a scoring call leaves *)

Lemma with_names_nil self : with_names self [] = self.
Proof. destruct self. unfold with_names. cbn. by rewrite app_nil_r. Qed.

Lemma with_name_single self name : with_name self name = with_names self [name].
Proof. reflexivity. Qed.

Lemma with_name_twice self x y :
  with_name (with_name self x) y = with_names self [x; y].
Proof. unfold with_name, with_names. cbn. by rewrite <- app_assoc. Qed.

Lemma with_name_thrice self x y z :
  with_name (with_name (with_name self x) y) z = with_names self [x; y; z].
Proof. unfold with_name, with_names. cbn. by rewrite <- !app_assoc. Qed.

(** Either a core computation or [pd.concat] raised and nothing was touched,
    or a result was stored, with outer labels among the labels of the call,
    and a prefix of these labels, all of them new, was appended: the whole
    of them when the call returns, those before the first registered one
    when it raises. *)
Lemma run_call_cases self c :
  let o := run_call runPhenoScore px c self in
  (final o = self /\ exists e, value o = Err e)
  \/ exists labels stored appended,
       final o = with_names (with_phenotypes self (call_run_name c) stored) appended
       /\ NoDup labels
       /\ (forall k, k ∈ stored.*1 -> k ∈ labels)
       /\ (forall x, x ∈ appended -> x ∉ phenotype_names self)
       /\ ((value o = Ok tt /\ appended = labels)
           \/ exists dup rest,
                value o = Err (ValueError (duplicate_message dup))
                /\ dup ∈ phenotype_names self
                /\ labels = appended ++ dup :: rest).
Proof.
  destruct c as [a|a]; cbv zeta; cbn [run_call call_run_name].
  - destruct (runPhenoScore (gamma_call self a)) as [[gn g]|eg] eqn:Hg;
      [|rewrite (drug_gamma_raises _ _ _ _ _ Hg); left; eauto].
    destruct (runPhenoScore (tau_call self a)) as [[tn t]|et] eqn:Ht;
      [|rewrite (drug_tau_raises _ _ _ _ _ _ _ Hg Ht); left; eauto].
    destruct (runPhenoScore (rho_call self a)) as [[rn r]|er] eqn:Hr;
      [|rewrite (drug_rho_raises _ _ _ _ _ _ _ _ _ Hg Ht Hr); left; eauto].
    destruct (concat_axis1 px (drug_entries gn g tn t rn r)) as [stored|ec] eqn:Hc;
      [|rewrite (drug_concat_raises _ _ _ _ _ _ _ _ _ _ Hg Ht Hr _ Hc); left; eauto].
    right. exists (drug_entries gn g tn t rn r).*1, stored.
    pose proof (drug_entries_keys_distinct gn tn rn g t r) as Hnd.
    pose proof (fun k => concat_keys px _ _ k Hc) as Hsub.
    destruct (decide ("gamma:" +:+ gn ∈ phenotype_names self)) as [HG|HG].
    { rewrite (drug_gamma_duplicate _ _ _ _ _ _ _ _ _ _ Hg Ht Hr _ Hc HG).
      exists []. cbn [final value]. rewrite with_names_nil.
      split; [done|]. split; [done|]. split; [done|].
      split; [by intros x ?%elem_of_nil|].
      right. by exists ("gamma:" +:+ gn), ["tau:" +:+ tn; "rho:" +:+ rn]. }
    destruct (decide ("tau:" +:+ tn ∈ phenotype_names self)) as [HT|HT].
    { rewrite (drug_tau_duplicate _ _ _ _ _ _ _ _ _ _ Hg Ht Hr _ Hc HG HT).
      exists ["gamma:" +:+ gn]. cbn [final value].
      split; [done|]. split; [done|]. split; [done|].
      split; [by intros x ->%list_elem_of_singleton|].
      right. by exists ("tau:" +:+ tn), ["rho:" +:+ rn]. }
    destruct (decide ("rho:" +:+ rn ∈ phenotype_names self)) as [HR|HR].
    { rewrite (drug_rho_duplicate _ _ _ _ _ _ _ _ _ _ Hg Ht Hr _ Hc HG HT HR).
      exists ["gamma:" +:+ gn; "tau:" +:+ tn]. cbn [final value].
      rewrite with_name_twice.
      split; [done|]. split; [done|]. split; [done|].
      split; [intros x [->|[->|?%elem_of_nil]%elem_of_cons]%elem_of_cons; done|].
      right. by exists ("rho:" +:+ rn), []. }
    rewrite (drug_registers_all _ _ _ _ _ _ _ _ _ _ Hg Ht Hr _ Hc HG HT HR).
    exists ["gamma:" +:+ gn; "tau:" +:+ tn; "rho:" +:+ rn]. cbn [final value].
    rewrite with_name_thrice.
    split; [done|]. split; [done|]. split; [done|].
    split; [|by left].
    intros x [->|[->|[->|?%elem_of_nil]%elem_of_cons]%elem_of_cons]%elem_of_cons; done.
  - destruct (runPhenoScore (delta_call self a)) as [[dn d]|e] eqn:Hd;
      [|rewrite (flow_raises _ _ _ _ _ Hd); left; eauto].
    right. exists ["delta:" +:+ dn], (flow_stored dn d).
    assert (Hnd : NoDup ["delta:" +:+ dn]).
    { apply NoDup_cons_2; [apply not_elem_of_nil|apply NoDup_nil_2]. }
    assert (Hsub : forall k, k ∈ (flow_stored dn d).*1 -> k ∈ ["delta:" +:+ dn]).
    { intros k. unfold flow_stored. destruct (columns d); [by intros ?%elem_of_nil|done]. }
    destruct (decide ("delta:" +:+ dn ∈ phenotype_names self)) as [HD|HD].
    + rewrite (flow_duplicate _ _ _ _ _ _ Hd HD).
      exists []. cbn [final value]. rewrite with_names_nil.
      split; [done|]. split; [done|]. split; [done|].
      split; [by intros x ?%elem_of_nil|].
      right. by exists ("delta:" +:+ dn), [].
    + rewrite (flow_registers _ _ _ _ _ _ Hd HD).
      exists ["delta:" +:+ dn]. cbn [final value].
      split; [done|]. split; [done|]. split; [done|].
      split; [by intros x ->%list_elem_of_singleton|by left].
Qed.

Lemma appended_nodup (labels appended : list string) self c :
  NoDup labels ->
  ((value (run_call runPhenoScore px c self) = Ok tt /\ appended = labels)
   \/ exists dup rest,
        value (run_call runPhenoScore px c self)
        = Err (ValueError (duplicate_message dup))
        /\ dup ∈ phenotype_names self
        /\ labels = appended ++ dup :: rest) ->
  NoDup appended.
Proof.
  intros Hnd [[_ ->]|(dup & rest & _ & _ & Heq)]; [done|].
  rewrite Heq in Hnd. by apply NoDup_app in Hnd as [? _].
Qed.

(** The value of [getPhenotypeScores] is decided by whether the label is
    registered and by what is stored under the run name. *)
Lemma get_value_same self self' (ga : GetArgs) :
  (score_name ga ∈ phenotype_names self <-> score_name ga ∈ phenotype_names self') ->
  phenotypes self !! g_run_name ga = phenotypes self' !! g_run_name ga ->
  value (getPhenotypeScores ann_score_df px ga self)
  = value (getPhenotypeScores ann_score_df px ga self').
Proof.
  intros Hiff Hrun.
  destruct (decide (score_name ga ∈ phenotype_names self)) as [Hn|Hn].
  - assert (Hn' : score_name ga ∈ phenotype_names self') by by apply Hiff.
    destruct (phenotypes self !! g_run_name ga) as [mf|] eqn:Hmf.
    + rewrite (get_registered _ _ _ _ _ Hn Hmf).
      by rewrite (get_registered _ _ _ _ _ Hn' (eq_sym Hrun)).
    + rewrite (get_unknown_run _ _ _ _ Hn Hmf).
      by rewrite (get_unknown_run _ _ _ _ Hn' (eq_sym Hrun)).
  - assert (Hn' : score_name ga ∉ phenotype_names self') by by rewrite <- Hiff.
    rewrite (get_not_registered _ _ _ _ Hn). by rewrite (get_not_registered _ _ _ _ Hn').
Qed.

(** *** Invariants *)

(** X1. A scoring call, returning or raising, leaves [adata],
    [transformation], [test] and [n_reps] of the object as they were. *)
Theorem scoring_keeps_settings self c :
  let o := run_call runPhenoScore px c self in
  adata (final o) = adata self
  /\ transformation (final o) = transformation self
  /\ test (final o) = test self
  /\ n_reps (final o) = n_reps self.
Proof.
  pose proof (run_call_cases self c) as H. cbv zeta in *.
  destruct H as [[-> _]|(labels & stored & appended & -> & _)]; done.
Qed.

(** X2. [phenotype_names] never holds a label twice: a scoring call,
    returning or raising, keeps the list free of duplicates, and so does any
    session of scoring calls on a new object, with the calls that raise
    caught. *)
Theorem names_stay_distinct :
  (forall self c,
     NoDup (phenotype_names self) ->
     NoDup (phenotype_names (final (run_call runPhenoScore px c self))))
  /\ (forall cs a tr te n,
       NoDup (phenotype_names (run_session runPhenoScore px cs (init a tr te n)))).
Proof.
  assert (Hstep : forall self c,
             NoDup (phenotype_names self) ->
             NoDup (phenotype_names (final (run_call runPhenoScore px c self)))).
  { intros self c Hnd. pose proof (run_call_cases self c) as H. cbv zeta in H.
    destruct H as [[-> _]|(labels & stored & appended & -> & Hkeys & _ & Hfresh & Hres)];
      [done|].
    cbn. apply NoDup_app. split; [done|]. split.
    - intros x Hx Happ. by apply (Hfresh x).
    - by eapply appended_nodup. }
  split; [exact Hstep|].
  intros cs a tr te n.
  assert (Hgen : forall self, NoDup (phenotype_names self) ->
                   NoDup (phenotype_names (run_session runPhenoScore px cs self))).
  { induction cs as [|c cs IH]; intros self Hnd; cbn; [done|].
    apply IH. by apply Hstep. }
  apply Hgen. cbn. apply NoDup_nil_2.
Qed.

(** X3. On a new object every label of every stored result is registered,
    and a scoring call that returns keeps it so; hence it holds after every
    sequence of successful scoring calls. *)
Theorem stored_labels_are_registered :
  (forall a tr te n, labels_registered (init (AnnData:=AnnData) a tr te n))
  /\ (forall self c,
       labels_registered self ->
       value (run_call runPhenoScore px c self) = Ok tt ->
       labels_registered (final (run_call runPhenoScore px c self)))
  /\ (forall cs self self',
       labels_registered self ->
       run_successful runPhenoScore px cs self = Some self' ->
       labels_registered self').
Proof.
  assert (Hstep : forall self c,
             labels_registered self ->
             value (run_call runPhenoScore px c self) = Ok tt ->
             labels_registered (final (run_call runPhenoScore px c self))).
  { intros self c Hinv Hok. pose proof (run_call_cases self c) as H. cbv zeta in H.
    destruct H as [[_ [e He]]|(labels & stored & appended & Hfin & _ & Hsub & _ & Hres)];
      [congruence|].
    destruct Hres as [[_ ->]|(dup & rest & Herr & _)]; [|congruence].
    rewrite Hfin. intros run mf label. cbn.
    rewrite lookup_insert. case_decide as Hrun.
    - intros [= <-] Hin. apply elem_of_app. right. by apply Hsub.
    - intros Hmf Hin. apply elem_of_app. left. by eapply Hinv. }
  split; [|split; [exact Hstep|]].
  - intros a tr te n run mf label. cbn. by rewrite lookup_empty.
  - induction cs as [|c cs IH]; intros self self' Hinv; cbn.
    + by intros [= <-].
    + destruct (value (run_call runPhenoScore px c self)) as [[]|e] eqn:Hv; [|done].
      intros Hrest. eapply IH; [|exact Hrest]. by apply Hstep.
Qed.

(** X4. No scoring call assigns the key [''] of [phenotypes] unless its
    score level is the empty string: an empty run name counts as none. *)
Theorem empty_run_name_is_no_key self c :
  call_score_level c <> "" ->
  phenotypes (final (run_call runPhenoScore px c self)) !! ""
  = phenotypes self !! "".
Proof.
  intros Hlevel.
  assert (Hkey : call_run_name c <> "").
  { destruct c as [[? ? ? ? ? level [[|]|]]|[? ? level [[|]|]]]; cbn in *; done. }
  pose proof (run_call_cases self c) as H. cbv zeta in H.
  destruct H as [[-> _]|(labels & stored & appended & -> & _)]; [done|].
  cbn. by rewrite lookup_insert_ne.
Qed.

(** *** How calls compose *)

(** X5. The same scoring call made again after it has returned raises
    [ValueError] for a label that is now registered, and leaves the object
    exactly as the first call left it. *)
Theorem repeated_call_raises self c :
  value (run_call runPhenoScore px c self) = Ok tt ->
  let s1 := final (run_call runPhenoScore px c self) in
  (exists dup,
     dup ∈ phenotype_names s1
     /\ value (run_call runPhenoScore px c s1) = Err (ValueError (duplicate_message dup)))
  /\ final (run_call runPhenoScore px c s1) = s1.
Proof.
  destruct c as [a|a]; cbv zeta; cbn [run_call].
  - destruct (runPhenoScore (gamma_call self a)) as [[gn g]|eg] eqn:Hg;
      [|by rewrite (drug_gamma_raises _ _ _ _ _ Hg)].
    destruct (runPhenoScore (tau_call self a)) as [[tn t]|et] eqn:Ht;
      [|by rewrite (drug_tau_raises _ _ _ _ _ _ _ Hg Ht)].
    destruct (runPhenoScore (rho_call self a)) as [[rn r]|er] eqn:Hr;
      [|by rewrite (drug_rho_raises _ _ _ _ _ _ _ _ _ Hg Ht Hr)].
    destruct (concat_axis1 px (drug_entries gn g tn t rn r)) as [stored|ec] eqn:Hc;
      [|by rewrite (drug_concat_raises _ _ _ _ _ _ _ _ _ _ Hg Ht Hr _ Hc)].
    destruct (decide ("gamma:" +:+ gn ∈ phenotype_names self)) as [HG|HG];
      [by rewrite (drug_gamma_duplicate _ _ _ _ _ _ _ _ _ _ Hg Ht Hr _ Hc HG)|].
    destruct (decide ("tau:" +:+ tn ∈ phenotype_names self)) as [HT|HT];
      [by rewrite (drug_tau_duplicate _ _ _ _ _ _ _ _ _ _ Hg Ht Hr _ Hc HG HT)|].
    destruct (decide ("rho:" +:+ rn ∈ phenotype_names self)) as [HR|HR];
      [by rewrite (drug_rho_duplicate _ _ _ _ _ _ _ _ _ _ Hg Ht Hr _ Hc HG HT HR)|].
    rewrite (drug_registers_all _ _ _ _ _ _ _ _ _ _ Hg Ht Hr _ Hc HG HT HR).
    intros _. cbn [final]. rewrite with_name_thrice.
    set (s1 := with_names _ _).
    assert (HG1 : "gamma:" +:+ gn ∈ phenotype_names s1).
    { subst s1. cbn. apply elem_of_app. right. apply elem_of_cons. by left. }
    rewrite (drug_gamma_duplicate runPhenoScore px s1 a gn tn rn g t r Hg Ht Hr
               stored Hc HG1).
    cbn [final value]. split; [eauto|].
    subst s1. unfold drug_stored, with_phenotypes, with_names. cbn.
    by rewrite insert_insert_eq.
  - destruct (runPhenoScore (delta_call self a)) as [[dn d]|e] eqn:Hd;
      [|by rewrite (flow_raises _ _ _ _ _ Hd)].
    destruct (decide ("delta:" +:+ dn ∈ phenotype_names self)) as [HD|HD];
      [by rewrite (flow_duplicate _ _ _ _ _ _ Hd HD)|].
    rewrite (flow_registers _ _ _ _ _ _ Hd HD).
    intros _. cbn [final].
    set (s1 := with_name _ _).
    assert (HD1 : "delta:" +:+ dn ∈ phenotype_names s1).
    { subst s1. cbn. apply elem_of_app. right. apply elem_of_cons. by left. }
    rewrite (flow_duplicate runPhenoScore px s1 a dn d Hd HD1).
    cbn [final value]. split; [eauto|].
    subst s1. unfold with_phenotypes, with_name. cbn.
    by rewrite insert_insert_eq.
Qed.

(** X6. A scoring call, returning or raising, does not change what
    [getPhenotypeScores] gives for a registered label under another run
    name. *)
Theorem other_runs_still_retrieved self c (ga : GetArgs) :
  score_name ga ∈ phenotype_names self ->
  g_run_name ga <> call_run_name c ->
  value (getPhenotypeScores ann_score_df px ga
           (final (run_call runPhenoScore px c self)))
  = value (getPhenotypeScores ann_score_df px ga self).
Proof.
  intros Hn Hrun. pose proof (run_call_cases self c) as H. cbv zeta in H.
  destruct H as [[-> _]|(labels & stored & appended & -> & _)]; [done|].
  apply get_value_same; cbn.
  - rewrite elem_of_app. split; intros _; [exact Hn|by left].
  - by rewrite lookup_insert_ne.
Qed.

(** X7. A scoring call that returns takes over its run name: a label that
    was registered before the call, asked for under that run name
    afterwards, raises the [KeyError] of the lookup, whatever was stored
    there before. *)
Theorem overwritten_run_loses_labels self c (ga : GetArgs) :
  value (run_call runPhenoScore px c self) = Ok tt ->
  score_name ga ∈ phenotype_names self ->
  g_run_name ga = call_run_name c ->
  value (getPhenotypeScores ann_score_df px ga
           (final (run_call runPhenoScore px c self)))
  = Err (KeyError [score_name ga]).
Proof.
  intros Hok Hn Hrun. pose proof (run_call_cases self c) as H. cbv zeta in H.
  destruct H as [[_ [e He]]|(labels & stored & appended & Hfin & _ & Hsub & Hfresh & Hres)];
    [congruence|].
  destruct Hres as [[_ ->]|(dup & rest & Herr & _)]; [|congruence].
  rewrite Hfin.
  rewrite (get_registered ann_score_df px _ ga stored).
  - cbn [value]. rewrite getitem_missing; [done|].
    intros Hin. by apply (Hfresh _ (Hsub _ Hin)).
  - cbn. apply elem_of_app. by left.
  - cbn. rewrite Hrun. apply lookup_insert_eq.
Qed.

(** *** Storing and retrieving *)

Lemma get_found self (ga : GetArgs) mf tbl :
  score_name ga ∈ phenotype_names self ->
  phenotypes self !! g_run_name ga = Some mf ->
  getitem mf (score_name ga) = Ok tbl ->
  getPhenotypeScores ann_score_df px ga self
  = mkOutcome [] self (annotate_table ann_score_df px ga tbl).
Proof.
  intros Hn Hrun Htbl. rewrite (get_registered _ _ _ _ _ Hn Hrun), Htbl. reflexivity.
Qed.

(** X8. After a drug screen that returns, on three tables with the same row
    labels, [getPhenotypeScores] under the run name of the screen finds, for
    the gamma, the tau and the rho label, the rows and columns of the table
    the core returned for it, under the index name the three tables agree
    on, and gives what the column selection and [ann_score_df] make of
    them; for a table without columns it raises [KeyError], as no column
    carries the label. *)
Theorem drug_scores_retrieved self a gn g tn t rn r (ga : GetArgs) :
  runPhenoScore (gamma_call self a) = Ok (gn, g) ->
  runPhenoScore (tau_call self a) = Ok (tn, t) ->
  runPhenoScore (rho_call self a) = Ok (rn, r) ->
  "gamma:" +:+ gn ∉ phenotype_names self ->
  "tau:" +:+ tn ∉ phenotype_names self ->
  "rho:" +:+ rn ∉ phenotype_names self ->
  index t = index g ->
  index r = index g ->
  g_run_name ga = drug_run_name a ->
  let s1 := final (calculateDrugScreen runPhenoScore px a self) in
  let retrieved tbl :=
    match columns tbl with
    | [] => Err (KeyError [score_name ga])
    | _ :: _ => annotate_table ann_score_df px ga (concat_member [g; t; r] tbl)
    end in
  (score_name ga = "gamma:" +:+ gn ->
   value (getPhenotypeScores ann_score_df px ga s1) = retrieved g)
  /\ (score_name ga = "tau:" +:+ tn ->
      value (getPhenotypeScores ann_score_df px ga s1) = retrieved t)
  /\ (score_name ga = "rho:" +:+ rn ->
      value (getPhenotypeScores ann_score_df px ga s1) = retrieved r).
Proof.
  intros Hg Ht Hr HG HT HR Hit Hir Hrun. cbv zeta.
  pose proof (concat_three px ("gamma:" +:+ gn) ("tau:" +:+ tn) ("rho:" +:+ rn)
                g t r Hit Hir) as Hc.
  rewrite (drug_registers_all _ _ _ _ _ _ _ _ _ _ Hg Ht Hr _ Hc HG HT HR).
  cbn [final]. rewrite with_name_thrice.
  set (stored := keyed _ _) in *.
  destruct (getitem_keyed_three ("gamma:" +:+ gn) ("tau:" +:+ tn) ("rho:" +:+ rn)
              (concat_member [g; t; r] g) (concat_member [g; t; r] t)
              (concat_member [g; t; r] r)
              (gamma_neq_tau _ _) (gamma_neq_rho _ _) (tau_neq_rho _ _))
    as (Hgi & Hti & Hri).
  cbn [concat_member columns] in Hgi, Hti, Hri.
  assert (Hstored : phenotypes
            (with_names (drug_stored self a stored)
               ["gamma:" +:+ gn; "tau:" +:+ tn; "rho:" +:+ rn])
            !! g_run_name ga = Some stored).
  { cbn. rewrite Hrun. apply lookup_insert_eq. }
  split; [|split]; intros Hname;
    (rewrite (get_registered ann_score_df px _ ga stored);
     [|rewrite Hname; cbn; apply elem_of_app; right; rewrite !elem_of_cons; auto
      |exact Hstored]);
    cbn [value]; rewrite Hname; subst stored; cbn [map];
    first [rewrite Hgi | rewrite Hti | rewrite Hri];
    match goal with |- context [columns ?f] => by destruct (columns f) end.
Qed.

(** X9. After a flow screen that returns, [getPhenotypeScores] under the
    run name of the screen finds, for the delta label, the table the core
    returned, and gives what the column selection and [ann_score_df] make
    of it; for a table without columns it raises [KeyError], as no column
    carries the label. *)
Theorem flow_scores_retrieved self a dn d (ga : GetArgs) :
  runPhenoScore (delta_call self a) = Ok (dn, d) ->
  "delta:" +:+ dn ∉ phenotype_names self ->
  g_run_name ga = flow_run_name a ->
  score_name ga = "delta:" +:+ dn ->
  value (getPhenotypeScores ann_score_df px ga
           (final (calculateFlowBasedScreen runPhenoScore px a self)))
  = match columns d with
    | [] => Err (KeyError ["delta:" +:+ dn])
    | _ :: _ => annotate_table ann_score_df px ga d
    end.
Proof.
  intros Hd HD Hrun Hname. rewrite (flow_registers _ _ _ _ _ _ Hd HD). cbn [final].
  rewrite (get_registered ann_score_df px _ ga (flow_stored dn d)).
  - cbn [value]. rewrite Hname. unfold flow_stored.
    destruct (columns d); cbn; [done|]. by rewrite bool_decide_eq_true_2.
  - rewrite Hname. cbn. apply elem_of_app. right. apply elem_of_cons. by left.
  - cbn. rewrite Hrun. apply lookup_insert_eq.
Qed.

(** X10. When a drug screen on three tables with the same row labels raises
    because its gamma or its tau label is registered already, while its rho
    label is not, the rho table, if it has a column, is stored under the
    run name all the same, but its label is not registered:
    [getPhenotypeScores] raises the not-found [ValueError] for it, and the
    stored labels are no longer all registered. *)
Theorem duplicate_strands_rho self a gn g tn t rn r (ga : GetArgs) :
  runPhenoScore (gamma_call self a) = Ok (gn, g) ->
  runPhenoScore (tau_call self a) = Ok (tn, t) ->
  runPhenoScore (rho_call self a) = Ok (rn, r) ->
  "gamma:" +:+ gn ∈ phenotype_names self \/ "tau:" +:+ tn ∈ phenotype_names self ->
  "rho:" +:+ rn ∉ phenotype_names self ->
  index t = index g ->
  index r = index g ->
  columns r <> [] ->
  g_run_name ga = drug_run_name a ->
  score_name ga = "rho:" +:+ rn ->
  let s1 := final (calculateDrugScreen runPhenoScore px a self) in
  (exists mf,
     phenotypes s1 !! drug_run_name a = Some mf
     /\ getitem mf ("rho:" +:+ rn) = Ok (concat_member [g; t; r] r))
  /\ value (getPhenotypeScores ann_score_df px ga s1)
     = Err (ValueError (not_found_message ("rho:" +:+ rn)))
  /\ ~ labels_registered s1.
Proof.
  intros Hg Ht Hr Hdup HR Hit Hir Hcols Hrun Hname. cbv zeta.
  pose proof (concat_three px ("gamma:" +:+ gn) ("tau:" +:+ tn) ("rho:" +:+ rn)
                g t r Hit Hir) as Hc.
  destruct (getitem_keyed_three ("gamma:" +:+ gn) ("tau:" +:+ tn) ("rho:" +:+ rn)
              (concat_member [g; t; r] g) (concat_member [g; t; r] t)
              (concat_member [g; t; r] r)
              (gamma_neq_tau _ _) (gamma_neq_rho _ _) (tau_neq_rho _ _))
    as (_ & _ & Hri).
  cbn [concat_member columns] in Hri.
  destruct (columns r) as [|rc rcs] eqn:Hrc; [done|]. clear Hcols.
  set (stored := keyed _ _) in *.
  assert (Hin : "rho:" +:+ rn ∈ stored.*1).
  { destruct (decide ("rho:" +:+ rn ∈ stored.*1)) as [?|Hnot]; [done|].
    apply getitem_missing in Hnot. subst stored. rewrite Hri in Hnot.
    discriminate Hnot. }
  assert (Hgoal : forall s1 : PooledScreens AnnData,
             phenotypes s1 !! drug_run_name a = Some stored ->
             "rho:" +:+ rn ∉ phenotype_names s1 ->
             (exists mf,
                phenotypes s1 !! drug_run_name a = Some mf
                /\ getitem mf ("rho:" +:+ rn) = Ok (concat_member [g; t; r] r))
             /\ value (getPhenotypeScores ann_score_df px ga s1)
                = Err (ValueError (not_found_message ("rho:" +:+ rn)))
             /\ ~ labels_registered s1).
  { intros s1 Hstored Hnot. split; [eauto|]. split.
    - rewrite get_not_registered by by rewrite Hname. by rewrite Hname.
    - intros Hinv. apply Hnot. eapply Hinv; [exact Hstored|exact Hin]. }
  destruct (decide ("gamma:" +:+ gn ∈ phenotype_names self)) as [HG|HG].
  - rewrite (drug_gamma_duplicate _ _ _ _ _ _ _ _ _ _ Hg Ht Hr _ Hc HG). cbn [final].
    apply Hgoal; [cbn; apply lookup_insert_eq|done].
  - destruct Hdup as [?|HT]; [done|].
    rewrite (drug_tau_duplicate _ _ _ _ _ _ _ _ _ _ Hg Ht Hr _ Hc HG HT). cbn [final].
    apply Hgoal; [cbn; apply lookup_insert_eq|].
    cbn. rewrite elem_of_app, list_elem_of_singleton.
    intros [?|Heq]; [done|]. by apply (gamma_neq_rho gn rn).
Qed.

(** X11. A scoring call returns exactly when its core computations return,
    [pd.concat] returns and none of its labels is registered; the
    [pd.concat] of the one table of a flow screen always returns. *)
Theorem scoring_call_returns_iff self :
  (forall a,
     value (calculateDrugScreen runPhenoScore px a self) = Ok tt
     <-> exists gn g tn t rn r,
           runPhenoScore (gamma_call self a) = Ok (gn, g)
           /\ runPhenoScore (tau_call self a) = Ok (tn, t)
           /\ runPhenoScore (rho_call self a) = Ok (rn, r)
           /\ is_ok (concat_axis1 px [("gamma:" +:+ gn, g); ("tau:" +:+ tn, t);
                                      ("rho:" +:+ rn, r)]) = true
           /\ ("gamma:" +:+ gn ∉ phenotype_names self)
           /\ ("tau:" +:+ tn ∉ phenotype_names self)
           /\ ("rho:" +:+ rn ∉ phenotype_names self))
  /\ (forall a,
       value (calculateFlowBasedScreen runPhenoScore px a self) = Ok tt
       <-> exists dn d,
             runPhenoScore (delta_call self a) = Ok (dn, d)
             /\ ("delta:" +:+ dn ∉ phenotype_names self)).
Proof.
  split; intros a; split.
  - destruct (runPhenoScore (gamma_call self a)) as [[gn g]|eg] eqn:Hg;
      [|by rewrite (drug_gamma_raises _ _ _ _ _ Hg)].
    destruct (runPhenoScore (tau_call self a)) as [[tn t]|et] eqn:Ht;
      [|by rewrite (drug_tau_raises _ _ _ _ _ _ _ Hg Ht)].
    destruct (runPhenoScore (rho_call self a)) as [[rn r]|er] eqn:Hr;
      [|by rewrite (drug_rho_raises _ _ _ _ _ _ _ _ _ Hg Ht Hr)].
    destruct (concat_axis1 px (drug_entries gn g tn t rn r)) as [stored|ec] eqn:Hc;
      [|by rewrite (drug_concat_raises _ _ _ _ _ _ _ _ _ _ Hg Ht Hr _ Hc)].
    destruct (decide ("gamma:" +:+ gn ∈ phenotype_names self)) as [HG|HG];
      [by rewrite (drug_gamma_duplicate _ _ _ _ _ _ _ _ _ _ Hg Ht Hr _ Hc HG)|].
    destruct (decide ("tau:" +:+ tn ∈ phenotype_names self)) as [HT|HT];
      [by rewrite (drug_tau_duplicate _ _ _ _ _ _ _ _ _ _ Hg Ht Hr _ Hc HG HT)|].
    destruct (decide ("rho:" +:+ rn ∈ phenotype_names self)) as [HR|HR];
      [by rewrite (drug_rho_duplicate _ _ _ _ _ _ _ _ _ _ Hg Ht Hr _ Hc HG HT HR)|].
    intros _. exists gn, g, tn, t, rn, r.
    change [("gamma:" +:+ gn, g); ("tau:" +:+ tn, t); ("rho:" +:+ rn, r)]
      with (drug_entries gn g tn t rn r).
    by rewrite Hc.
  - intros (gn & g & tn & t & rn & r & Hg & Ht & Hr & Hok & HG & HT & HR).
    change [("gamma:" +:+ gn, g); ("tau:" +:+ tn, t); ("rho:" +:+ rn, r)]
      with (drug_entries gn g tn t rn r) in Hok.
    destruct (concat_axis1 px (drug_entries gn g tn t rn r)) as [stored|ec] eqn:Hc;
      [|done].
    by rewrite (drug_registers_all _ _ _ _ _ _ _ _ _ _ Hg Ht Hr _ Hc HG HT HR).
  - destruct (runPhenoScore (delta_call self a)) as [[dn d]|e] eqn:Hd;
      [|by rewrite (flow_raises _ _ _ _ _ Hd)].
    destruct (decide ("delta:" +:+ dn ∈ phenotype_names self)) as [HD|HD];
      [by rewrite (flow_duplicate _ _ _ _ _ _ Hd HD)|].
    intros _. by exists dn, d.
  - intros (dn & d & Hd & HD). by rewrite (flow_registers _ _ _ _ _ _ Hd HD).
Qed.

(** X12. When the stored table lacks one of the three columns asked for,
    [getPhenotypeScores] raises, whatever [ann_score_df] would do: a
    [KeyError] that names that column, and only columns asked for that the
    table lacks; or, when the stored table is one column labelled with the
    empty string, so that [frame[score_name]] is a Series, the
    [IndexingError] of [.loc]. *)
Theorem missing_column_raises self (ga : GetArgs) mf tbl k :
  score_name ga ∈ phenotype_names self ->
  phenotypes self !! g_run_name ga = Some mf ->
  getitem mf (score_name ga) = Ok tbl ->
  k ∈ [target_col ga; pvalue_column ga; score_column ga] ->
  get_column (columns tbl) k = None ->
  let v := value (getPhenotypeScores ann_score_df px ga self) in
  if squeezed tbl
  then v = Err (IndexingError "Too many indexers")
  else exists missing,
         v = Err (KeyError missing)
         /\ k ∈ missing
         /\ (forall m, m ∈ missing ->
                       m ∈ [target_col ga; pvalue_column ga; score_column ga]
                       /\ get_column (columns tbl) m = None).
Proof.
  intros Hn Hrun Htbl Hk Hnone. cbv zeta.
  rewrite (get_found _ _ _ _ Hn Hrun Htbl). cbn [value].
  unfold annotate_table, loc_item.
  destruct (squeezed tbl); [done|].
  destruct (loc_columns_missing tbl _ k Hk) as (missing & -> & Hkm & Hall).
  { by apply no_column_get. }
  exists missing. split; [done|]. split; [done|].
  intros m Hm. destruct (Hall m Hm) as [Hkeep Hhas].
  split; [done|]. by apply no_column_get.
Qed.

End Sessions.

(** *** The rho divisor, again *)

Lemma abs_binary_round_aux (s s' : bool) (m e : Z) (l : location) :
  SFabs (binary_round_aux PyFloat.prec PyFloat.emax s m e l)
  = SFabs (binary_round_aux PyFloat.prec PyFloat.emax s' m e l).
Proof.
  unfold binary_round_aux.
  destruct (shr_fexp _ _ m e l) as [mrs' e'].
  destruct (shr_fexp _ _ _ e' loc_Exact) as [mrs'' e''].
  destruct (shr_m mrs''); [reflexivity| |reflexivity].
  destruct (Z.leb e'' _); reflexivity.
Qed.

Lemma abs_binary_normalize_opp (m e : Z) :
  SFabs (binary_normalize PyFloat.prec PyFloat.emax (- m) e false)
  = SFabs (binary_normalize PyFloat.prec PyFloat.emax m e false).
Proof.
  destruct m as [|p|p]; [reflexivity| |];
    change (Z.opp (Z.pos p)) with (Z.neg p); change (Z.opp (Z.neg p)) with (Z.pos p);
    unfold binary_normalize, binary_round;
    destruct (shl_align p e _) as [mz ez]; apply abs_binary_round_aux.
Qed.

(** X13. The divisor passed for rho does not depend on which of the two
    doubling rates is which, and it is never negative: for all floats,
    [|x - y|] and [|y - x|] are the same float, with a clear sign bit. *)
Theorem rho_divisor_symmetric (x y : spec_float) :
  rho_growth_rate x y = rho_growth_rate y x
  /\ match rho_growth_rate x y with
     | S754_zero s | S754_infinity s | S754_finite s _ _ => s = false
     | S754_nan => True
     end.
Proof.
  split.
  - unfold rho_growth_rate, PyFloat.abs, PyFloat.sub.
    destruct x as [sx|sx| |sx mx ex], y as [sy|sy| |sy my ey];
      try reflexivity; try (destruct sx, sy; reflexivity).
    unfold SFsub. rewrite (Z.min_comm ey ex).
    rewrite <- abs_binary_normalize_opp. f_equal. f_equal. lia.
  - unfold rho_growth_rate, PyFloat.abs. by destruct (PyFloat.sub x y).
Qed.

(** * Copies and new objects *)

Section Aliasing.
Context {AnnData : Type}.
Variable runPhenoScore : PhenoCall AnnData -> result (string * DataFrame).
Variable px : Pandas.Rest.
Implicit Types (h : Heap.heap AnnData) (o : nat) (s : PooledScreens AnnData).

(** The four attributes no method touches. *)
Lemma run_call_settings s (c : scoring_call) :
  let s' := final (run_call runPhenoScore px c s) in
  mkScreens (adata s') (transformation s') (test s') (n_reps s')
    (phenotypes s') (phenotype_names s')
  = mkScreens (adata s) (transformation s) (test s) (n_reps s)
      (phenotypes s') (phenotype_names s').
Proof.
  pose proof (run_call_cases runPhenoScore px s c) as H. cbv zeta in *.
  destruct H as [[-> _]|(labels & stored & appended & -> & _)]; done.
Qed.

(** What an instance sees after a method has run on an instance with the
    same attribute values. *)
Lemma load_store_alias h o o' attrs s s' :
  Heap.objects h !! o = Some attrs ->
  Heap.objects h !! o' = Some attrs ->
  Heap.load h o = Some s ->
  mkScreens (adata s') (transformation s') (test s') (n_reps s')
    (phenotypes s') (phenotype_names s')
  = mkScreens (adata s) (transformation s) (test s) (n_reps s)
      (phenotypes s') (phenotype_names s') ->
  Heap.load (Heap.store h o s') o' = Some s'.
Proof.
  intros Ho Ho' Hload Hsame. unfold Heap.load, Heap.store in *.
  rewrite Ho in *. cbn [Heap.objects Heap.dicts Heap.name_lists]. rewrite Ho'.
  destruct (Heap.dicts h !! Heap.a_phenotypes attrs) as [dct|] eqn:Hd; [|done].
  destruct (Heap.name_lists h !! Heap.a_phenotype_names attrs) as [l|] eqn:Hl; [|done].
  injection Hload as <-. cbn in Hsame.
  rewrite list_lookup_insert_eq by by eapply lookup_lt_Some.
  rewrite list_lookup_insert_eq by by eapply lookup_lt_Some.
  destruct s'. cbn in *. by injection Hsame as -> -> -> ->.
Qed.

(** What an instance with a dictionary and a list of its own sees after a
    method has run on another instance. *)
Lemma load_store_apart h o o' attrs attrs' s' :
  Heap.objects h !! o = Some attrs ->
  Heap.objects h !! o' = Some attrs' ->
  Heap.a_phenotypes attrs <> Heap.a_phenotypes attrs' ->
  Heap.a_phenotype_names attrs <> Heap.a_phenotype_names attrs' ->
  Heap.load (Heap.store h o s') o' = Heap.load h o'.
Proof.
  intros Ho Ho' Hd Hl. unfold Heap.load, Heap.store.
  rewrite Ho. cbn [Heap.objects Heap.dicts Heap.name_lists]. rewrite Ho'.
  by rewrite !list_lookup_insert_ne.
Qed.

(** X14. [copy] gives an instance that shares the registry of the original:
    both see the same object at once, and after a scoring call on the copy,
    returning or raising, the original sees every change the call made to
    [phenotypes] and [phenotype_names]. *)
Theorem copy_shares_registry h o s (c : scoring_call) :
  Heap.load h o = Some s ->
  exists h1 k,
    Heap.copy h o = Some (h1, k)
    /\ k <> o
    /\ Heap.load h1 k = Some s
    /\ Heap.load h1 o = Some s
    /\ exists h2,
         Heap.invoke (run_call runPhenoScore px c) h1 k
         = Some (h2, run_call runPhenoScore px c s)
         /\ Heap.load h2 k = Some (final (run_call runPhenoScore px c s))
         /\ Heap.load h2 o = Some (final (run_call runPhenoScore px c s)).
Proof.
  intros Hload. unfold Heap.copy.
  destruct (Heap.objects h !! o) as [attrs|] eqn:Ho;
    [|by unfold Heap.load in Hload; rewrite Ho in Hload].
  set (h1 := Heap.mkHeap (Heap.objects h ++ [attrs]) (Heap.dicts h) (Heap.name_lists h)).
  assert (Hk : Heap.objects h1 !! length (Heap.objects h) = Some attrs)
    by by apply list_lookup_middle.
  assert (Ho1 : Heap.objects h1 !! o = Some attrs).
  { cbn. rewrite lookup_app_l by by eapply lookup_lt_Some. done. }
  assert (Hload1 : forall i, Heap.objects h1 !! i = Some attrs -> Heap.load h1 i = Some s).
  { intros i Hi. unfold Heap.load in *. rewrite Hi. by rewrite Ho in Hload. }
  exists h1, (length (Heap.objects h)).
  split; [done|]. split.
  { apply lookup_lt_Some in Ho. lia. }
  split; [by apply Hload1|]. split; [by apply Hload1|].
  eexists. unfold Heap.invoke. rewrite (Hload1 _ Hk). split; [reflexivity|].
  split.
  - eapply load_store_alias; eauto. apply run_call_settings.
  - eapply load_store_alias; eauto. apply run_call_settings.
Qed.

(** X15. A new object has a registry of its own: it starts empty, the
    objects there were see what they saw, a scoring call on the new object
    changes nothing for them, and a scoring call on one of them changes
    nothing for the new object. *)
Theorem new_screens_own_registry h o s a tr te n (c : scoring_call) :
  Heap.load h o = Some s ->
  let h1 := (Heap.new_screens h a tr te n).1 in
  let k := (Heap.new_screens h a tr te n).2 in
  Heap.load h1 k = Some (init a tr te n)
  /\ Heap.load h1 o = Some s
  /\ (forall h2 out,
       Heap.invoke (run_call runPhenoScore px c) h1 k = Some (h2, out) ->
       Heap.load h2 o = Some s)
  /\ (forall h2 out,
       Heap.invoke (run_call runPhenoScore px c) h1 o = Some (h2, out) ->
       Heap.load h2 k = Some (init a tr te n)).
Proof.
  intros Hload. cbv zeta. unfold Heap.new_screens. cbn [fst snd].
  set (new := Heap.mkAttrs a tr te n (length (Heap.dicts h)) (length (Heap.name_lists h))).
  set (h1 := Heap.mkHeap _ _ _).
  unfold Heap.load in Hload.
  destruct (Heap.objects h !! o) as [attrs|] eqn:Ho; [|done].
  destruct (Heap.dicts h !! Heap.a_phenotypes attrs) as [dct|] eqn:Hd; [|done].
  destruct (Heap.name_lists h !! Heap.a_phenotype_names attrs) as [l|] eqn:Hl; [|done].
  assert (Hk : Heap.objects h1 !! length (Heap.objects h) = Some new)
    by by apply list_lookup_middle.
  assert (Ho1 : Heap.objects h1 !! o = Some attrs).
  { cbn. rewrite lookup_app_l by by eapply lookup_lt_Some. done. }
  assert (Hloadk : Heap.load h1 (length (Heap.objects h)) = Some (init a tr te n)).
  { unfold Heap.load. rewrite Hk. cbn.
    rewrite (list_lookup_middle (Heap.dicts h) [] ∅ _ eq_refl).
    by rewrite (list_lookup_middle (Heap.name_lists h) [] [] _ eq_refl). }
  assert (Hloado : Heap.load h1 o = Some s).
  { unfold Heap.load. rewrite Ho1. cbn.
    rewrite !lookup_app_l by by eapply lookup_lt_Some.
    by rewrite Hd, Hl. }
  assert (Hdne : Heap.a_phenotypes new <> Heap.a_phenotypes attrs).
  { cbn. apply lookup_lt_Some in Hd. lia. }
  assert (Hlne : Heap.a_phenotype_names new <> Heap.a_phenotype_names attrs).
  { cbn. apply lookup_lt_Some in Hl. lia. }
  split; [done|]. split; [done|]. split.
  - intros h2 out. unfold Heap.invoke. rewrite Hloadk. intros [= <- _].
    by rewrite (load_store_apart _ _ _ _ _ _ Hk Ho1 Hdne Hlne).
  - intros h2 out. unfold Heap.invoke. rewrite Hloado. intros [= <- _].
    by rewrite (load_store_apart _ _ _ _ _ _ Ho1 Hk (not_eq_sym Hdne) (not_eq_sym Hlne)).
Qed.

End Aliasing.

(** * The further properties on the small screen *)

Lemma names_stay_distinct_witness :
  NoDup (phenotype_names Demo.screen1)
  /\ NoDup (phenotype_names
              (final (run_call Demo.runPhenoScore Demo.px (Drug Demo.drug2)
                        Demo.screen1))).
Proof.
  assert (Hnd : NoDup (phenotype_names Demo.screen1)) by decided.
  split; [exact Hnd|].
  exact (proj1 (names_stay_distinct Demo.runPhenoScore Demo.px) Demo.screen1
           (Drug Demo.drug2) Hnd).
Defined.

Lemma stored_labels_are_registered_witness :
  labels_registered Demo.screen0
  /\ run_successful Demo.runPhenoScore Demo.px [Drug Demo.drug1; Flow Demo.flow2]
       Demo.screen0
     = Some Demo.screen2
  /\ labels_registered Demo.screen2.
Proof.
  destruct (stored_labels_are_registered Demo.runPhenoScore Demo.px)
    as (Hinit & _ & Hseq).
  assert (H0 : labels_registered Demo.screen0)
    by exact (Hinit Demo.samples "log2(x+1)" "ttest" 3%Z).
  assert (Hrun : run_successful Demo.runPhenoScore Demo.px
                   [Drug Demo.drug1; Flow Demo.flow2] Demo.screen0
                 = Some Demo.screen2) by by_evaluation.
  split; [exact H0|]. split; [exact Hrun|].
  exact (Hseq _ _ _ H0 Hrun).
Defined.

Lemma empty_run_name_is_no_key_witness :
  call_score_level (Drug Session.drug_empty_run) <> EmptyString
  /\ value (run_call Demo.runPhenoScore Demo.px (Drug Session.drug_empty_run)
              Demo.screen0)
     = Ok tt
  /\ phenotypes
       (final (run_call Demo.runPhenoScore Demo.px (Drug Session.drug_empty_run)
                 Demo.screen0))
     !! EmptyString = phenotypes Demo.screen0 !! EmptyString.
Proof.
  assert (Hlevel : call_score_level (Drug Session.drug_empty_run) <> EmptyString)
    by (vm_compute; discriminate).
  split; [exact Hlevel|]. split; [by_evaluation|].
  exact (empty_run_name_is_no_key Demo.runPhenoScore Demo.px Demo.screen0
           (Drug Session.drug_empty_run) Hlevel).
Defined.

Lemma repeated_call_raises_witness :
  value (run_call Demo.runPhenoScore Demo.px (Drug Demo.drug1) Demo.screen0) = Ok tt
  /\ (exists dup,
        dup ∈ phenotype_names Demo.screen1
        /\ value (run_call Demo.runPhenoScore Demo.px (Drug Demo.drug1) Demo.screen1)
           = Err (ValueError (duplicate_message dup)))
  /\ final (run_call Demo.runPhenoScore Demo.px (Drug Demo.drug1) Demo.screen1)
     = Demo.screen1.
Proof.
  assert (Hok : value (run_call Demo.runPhenoScore Demo.px (Drug Demo.drug1)
                         Demo.screen0)
                = Ok tt) by by_evaluation.
  split; [exact Hok|].
  exact (repeated_call_raises Demo.runPhenoScore Demo.px Demo.screen0
           (Drug Demo.drug1) Hok).
Defined.

Lemma other_runs_still_retrieved_witness :
  score_name Demo.get_rho ∈ phenotype_names Demo.screen1
  /\ g_run_name Demo.get_rho <> call_run_name (Flow Demo.flow2)
  /\ value (getPhenotypeScores Demo.ann_score_df Demo.px Demo.get_rho
              (final (run_call Demo.runPhenoScore Demo.px (Flow Demo.flow2)
                        Demo.screen1)))
     = value (getPhenotypeScores Demo.ann_score_df Demo.px Demo.get_rho Demo.screen1).
Proof.
  assert (Hn : score_name Demo.get_rho ∈ phenotype_names Demo.screen1) by decided.
  assert (Hrun : g_run_name Demo.get_rho <> call_run_name (Flow Demo.flow2))
    by (vm_compute; discriminate).
  split; [exact Hn|]. split; [exact Hrun|].
  exact (other_runs_still_retrieved Demo.runPhenoScore Demo.ann_score_df Demo.px
           Demo.screen1 (Flow Demo.flow2) Demo.get_rho Hn Hrun).
Defined.

Lemma overwritten_run_loses_labels_witness :
  value (run_call Demo.runPhenoScore Demo.px (Flow Demo.flow1) Demo.screen1) = Ok tt
  /\ score_name Demo.get_rho ∈ phenotype_names Demo.screen1
  /\ g_run_name Demo.get_rho = call_run_name (Flow Demo.flow1)
  /\ value (getPhenotypeScores Demo.ann_score_df Demo.px Demo.get_rho
              (final (run_call Demo.runPhenoScore Demo.px (Flow Demo.flow1)
                        Demo.screen1)))
     = Err (KeyError ["rho:untreated_vs_treated"]).
Proof.
  assert (Hok : value (run_call Demo.runPhenoScore Demo.px (Flow Demo.flow1)
                         Demo.screen1)
                = Ok tt) by by_evaluation.
  assert (Hn : score_name Demo.get_rho ∈ phenotype_names Demo.screen1) by decided.
  assert (Hrun : g_run_name Demo.get_rho = call_run_name (Flow Demo.flow1))
    by by_evaluation.
  split; [exact Hok|]. split; [exact Hn|]. split; [exact Hrun|].
  exact (overwritten_run_loses_labels Demo.runPhenoScore Demo.ann_score_df Demo.px
           Demo.screen1 (Flow Demo.flow1) Demo.get_rho Hok Hn Hrun).
Defined.

Lemma drug_scores_retrieved_witness :
  Demo.runPhenoScore (gamma_call Demo.screen0 Demo.drug1)
  = Ok ("T0_vs_untreated", Demo.score_table)
  /\ Demo.runPhenoScore (tau_call Demo.screen0 Demo.drug1)
     = Ok ("T0_vs_treated", Demo.score_table)
  /\ Demo.runPhenoScore (rho_call Demo.screen0 Demo.drug1)
     = Ok ("untreated_vs_treated", Demo.score_table)
  /\ value (getPhenotypeScores Demo.ann_score_df Demo.px Demo.get_rho
              (final (calculateDrugScreen Demo.runPhenoScore Demo.px Demo.drug1
                        Demo.screen0)))
     = annotate_table Demo.ann_score_df Demo.px Demo.get_rho Demo.score_table.
Proof.
  split; [by_evaluation|]. split; [by_evaluation|]. split; [by_evaluation|].
  refine (proj2 (proj2 (drug_scores_retrieved Demo.runPhenoScore Demo.ann_score_df
                          Demo.px Demo.screen0 Demo.drug1
                          "T0_vs_untreated" Demo.score_table
                          "T0_vs_treated" Demo.score_table
                          "untreated_vs_treated" Demo.score_table
                          Demo.get_rho _ _ _ _ _ _ _ _ _)) _);
    first [by_evaluation | decided].
Defined.

Lemma flow_scores_retrieved_witness :
  Demo.runPhenoScore (delta_call Demo.screen1 Demo.flow2)
  = Ok ("low_vs_high", Demo.score_table)
  /\ ("delta:low_vs_high" ∉ phenotype_names Demo.screen1)
  /\ value (getPhenotypeScores Demo.ann_score_df Demo.px Session.get_delta Demo.screen2)
     = annotate_table Demo.ann_score_df Demo.px Session.get_delta Demo.score_table.
Proof.
  split; [by_evaluation|]. split; [decided|].
  refine (flow_scores_retrieved Demo.runPhenoScore Demo.ann_score_df Demo.px
            Demo.screen1 Demo.flow2 "low_vs_high" Demo.score_table
            Session.get_delta _ _ _ _);
    first [by_evaluation | decided].
Defined.

Lemma duplicate_strands_rho_witness :
  "tau:T0_vs_treated" ∈ phenotype_names Demo.screen1
  /\ ("rho:vehicle_vs_treated" ∉ phenotype_names Demo.screen1)
  /\ (exists mf,
        phenotypes Session.screen_after_failure !! "second" = Some mf
        /\ getitem mf "rho:vehicle_vs_treated" = Ok Demo.score_table)
  /\ value (getPhenotypeScores Demo.ann_score_df Demo.px Session.get_rho_second
              Session.screen_after_failure)
     = Err (ValueError (not_found_message "rho:vehicle_vs_treated"))
  /\ ~ labels_registered Session.screen_after_failure.
Proof.
  assert (HT : "tau:" +:+ "T0_vs_treated" ∈ phenotype_names Demo.screen1) by decided.
  split; [exact HT|]. split; [decided|].
  refine (duplicate_strands_rho Demo.runPhenoScore Demo.ann_score_df Demo.px
            Demo.screen1 Demo.drug2
            "T0_vs_vehicle" Demo.score_table
            "T0_vs_treated" Demo.score_table
            "vehicle_vs_treated" Demo.score_table
            Session.get_rho_second _ _ _ (or_intror HT) _ _ _ _ _ _);
    first [by_evaluation | decided | (vm_compute; discriminate)].
Defined.

Lemma scoring_call_returns_iff_witness :
  value (calculateDrugScreen Demo.runPhenoScore Demo.px Demo.drug1 Demo.screen0) = Ok tt
  /\ exists gn g tn t rn r,
       Demo.runPhenoScore (gamma_call Demo.screen0 Demo.drug1) = Ok (gn, g)
       /\ Demo.runPhenoScore (tau_call Demo.screen0 Demo.drug1) = Ok (tn, t)
       /\ Demo.runPhenoScore (rho_call Demo.screen0 Demo.drug1) = Ok (rn, r)
       /\ is_ok (concat_axis1 Demo.px [("gamma:" +:+ gn, g); ("tau:" +:+ tn, t);
                                       ("rho:" +:+ rn, r)]) = true
       /\ ("gamma:" +:+ gn ∉ phenotype_names Demo.screen0)
       /\ ("tau:" +:+ tn ∉ phenotype_names Demo.screen0)
       /\ ("rho:" +:+ rn ∉ phenotype_names Demo.screen0).
Proof.
  assert (Hok : value (calculateDrugScreen Demo.runPhenoScore Demo.px Demo.drug1
                         Demo.screen0)
                = Ok tt) by by_evaluation.
  split; [exact Hok|].
  exact (proj1 (proj1 (scoring_call_returns_iff Demo.runPhenoScore Demo.px Demo.screen0)
                  Demo.drug1) Hok).
Defined.

Lemma missing_column_raises_witness :
  score_name Session.get_delta_bare ∈ phenotype_names Session.screen_bare
  /\ phenotypes Session.screen_bare !! "sgRNA"
     = Some [("delta:low_vs_high", Session.table_without_pvalue)]
  /\ get_column (columns Session.table_without_pvalue) "ttest pvalue" = None
  /\ squeezed Session.table_without_pvalue = false
  /\ exists missing,
       value (getPhenotypeScores Demo.ann_score_df Demo.px Session.get_delta_bare
                Session.screen_bare)
       = Err (KeyError missing)
       /\ "ttest pvalue" ∈ missing
       /\ (forall m, m ∈ missing ->
                     m ∈ ["target"; "ttest pvalue"; "score"]
                     /\ get_column (columns Session.table_without_pvalue) m = None).
Proof.
  split; [decided|]. split; [by_evaluation|]. split; [by_evaluation|].
  split; [by_evaluation|].
  refine (missing_column_raises Demo.ann_score_df Demo.px Session.screen_bare
            Session.get_delta_bare
            [("delta:low_vs_high", Session.table_without_pvalue)]
            Session.table_without_pvalue "ttest pvalue" _ _ _ _ _);
    first [by_evaluation | decided].
Defined.

Lemma copy_shares_registry_witness :
  Heap.load Session.heap1 0%nat = Some Demo.screen0
  /\ exists h1 k,
       Heap.copy Session.heap1 0%nat = Some (h1, k)
       /\ k <> 0%nat
       /\ Heap.load h1 k = Some Demo.screen0
       /\ Heap.load h1 0%nat = Some Demo.screen0
       /\ exists h2,
            Heap.invoke (run_call Demo.runPhenoScore Demo.px (Drug Demo.drug1)) h1 k
            = Some (h2, run_call Demo.runPhenoScore Demo.px (Drug Demo.drug1)
                          Demo.screen0)
            /\ Heap.load h2 k
               = Some (final (run_call Demo.runPhenoScore Demo.px (Drug Demo.drug1)
                                Demo.screen0))
            /\ Heap.load h2 0%nat
               = Some (final (run_call Demo.runPhenoScore Demo.px (Drug Demo.drug1)
                                Demo.screen0)).
Proof.
  assert (Hload : Heap.load Session.heap1 0%nat = Some Demo.screen0) by by_evaluation.
  split; [exact Hload|].
  exact (copy_shares_registry Demo.runPhenoScore Demo.px Session.heap1 0%nat
           Demo.screen0 (Drug Demo.drug1) Hload).
Defined.

Lemma new_screens_own_registry_witness :
  let h1 := (Heap.new_screens Session.heap1 Demo.samples "log2(x+1)" "ttest" 3).1 in
  let k := (Heap.new_screens Session.heap1 Demo.samples "log2(x+1)" "ttest" 3).2 in
  Heap.load Session.heap1 0%nat = Some Demo.screen0
  /\ Heap.load h1 k = Some Demo.screen0
  /\ Heap.load h1 0%nat = Some Demo.screen0
  /\ (forall h2 out,
       Heap.invoke (run_call Demo.runPhenoScore Demo.px (Drug Demo.drug1)) h1 k
       = Some (h2, out) ->
       Heap.load h2 0%nat = Some Demo.screen0)
  /\ (forall h2 out,
       Heap.invoke (run_call Demo.runPhenoScore Demo.px (Drug Demo.drug1)) h1 0%nat
       = Some (h2, out) ->
       Heap.load h2 k = Some Demo.screen0).
Proof.
  cbv zeta.
  assert (Hload : Heap.load Session.heap1 0%nat = Some Demo.screen0) by by_evaluation.
  split; [exact Hload|].
  exact (new_screens_own_registry Demo.runPhenoScore Demo.px Session.heap1 0%nat
           Demo.screen0 Demo.samples "log2(x+1)" "ttest" 3%Z (Drug Demo.drug1) Hload).
Defined.
